(** * Skill factory: skill pipeline, completion client, batch orchestration

    A shallow embedding of the Python sources

    - [src/skills/base.py]          (module [base])
    - [src/skills/claude_client.py] (module [claude_client])
    - [src/skills/registry.py]      (module [registry])
    - [src/db/models.py], [src/db/connection.py] (modules [models], [connection])
    - [src/queue/tasks.py]          (module [tasks])
    - [src/api/main.py]             (module [main])

    together with the properties of the execution contract, of the fence
    handling of the completion client, of the retry policy and of the batch
    counters.  Python modules become Rocq modules of the same name, classes
    become records, and the collaborators the program does not implement
    itself (clock, pydantic, the json module, the completion provider, httpx,
    uuid) are the fields of the class [Runtime]. *)

From Stdlib Require Import ZArith QArith String Ascii List.
From stdpp Require Import base option list gmap strings pretty.

Open Scope string_scope.
Open Scope list_scope.
Open Scope Z_scope.

(** ** Python values and strings *)

(** The JSON-shaped values that travel through the program: inputs, outputs,
    webhook payloads.  [PyNone] is Python's [None]; a [dict] keeps its
    insertion order. *)
#[warnings="-register-all"]
Inductive pyval : Type :=
| PyNone
| PyBool (b : bool)
| PyInt (n : Z)
| PyStr (s : string)
| PyList (l : list pyval)
| PyDict (d : list (string * pyval)).

(** Truth value of an object in a Python condition ([if x:]). *)
Definition truthy (v : pyval) : bool :=
  match v with
  | PyNone => false
  | PyBool b => b
  | PyInt n => negb (Z.eqb n 0)
  | PyStr s => negb (String.eqb s EmptyString)
  | PyList l => match l with [] => false | _ => true end
  | PyDict d => match d with [] => false | _ => true end
  end.

Module pystr.

Definition newline : ascii := ascii_of_nat 10.
Definition backtick : ascii := ascii_of_nat 96.

(** The three-character fence marker. *)
Definition fence : string := String backtick (String backtick (String backtick EmptyString)).

(** [str.isspace] on one character, for the code points below 256. *)
Definition isspace (c : ascii) : bool :=
  let n := nat_of_ascii c in
  (((9 <=? n) && (n <=? 13)) || ((28 <=? n) && (n <=? 32))
   || (n =? 133) || (n =? 160))%nat.

Fixpoint lstrip (s : string) : string :=
  match s with
  | EmptyString => EmptyString
  | String c s' => if isspace c then lstrip s' else s
  end.

Fixpoint rstrip (s : string) : string :=
  match s with
  | EmptyString => EmptyString
  | String c s' =>
      match rstrip s' with
      | EmptyString => if isspace c then EmptyString else String c EmptyString
      | r => String c r
      end
  end.

(** [s.strip()] *)
Definition strip (s : string) : string := rstrip (lstrip s).

(** [s.startswith(p)] *)
Definition startswith (s p : string) : bool := String.prefix p s.

(** [s.split("\n")]: never empty, the empty string splits into one empty line. *)
Fixpoint split_lines (s : string) : list string :=
  match s with
  | EmptyString => [EmptyString]
  | String c s' =>
      if Ascii.eqb c newline then EmptyString :: split_lines s'
      else match split_lines s' with
           | [] => [String c EmptyString]
           | l :: ls => String c l :: ls
           end
  end.

(** ["\n".join(lines)] *)
Fixpoint join_lines (lines : list string) : string :=
  match lines with
  | [] => EmptyString
  | [l] => l
  | l :: ls => l +:+ String newline (join_lines ls)
  end.

(** One bound of a slice, clamped as Python does: a negative index counts
    from the end. *)
Definition slice_index {A} (l : list A) (i : Z) : nat :=
  let n := Z.of_nat (length l) in
  Z.to_nat (if i <? 0 then Z.max (i + n) 0 else Z.min i n).

(** [l[start:stop]] *)
Definition slice {A} (l : list A) (start stop : Z) : list A :=
  let a := slice_index l start in
  let b := slice_index l stop in
  take (b - a) (drop a l).

(** [int(x)] on a number with a fractional part: truncation toward zero. *)
Definition int (x : Q) : Z := Z.quot (Qnum x) (Z.pos (Qden x)).

(** [s[:n]]: the first [n] characters, all of [s] when it is shorter. *)
Fixpoint prefix_chars (n : N) (s : string) : string :=
  match s with
  | EmptyString => EmptyString
  | String c s' =>
      if (n =? 0)%N then EmptyString else String c (prefix_chars (N.pred n) s')
  end.

(** The text has no line break in it. *)
Fixpoint single_line (s : string) : bool :=
  match s with
  | EmptyString => true
  | String c s' => negb (Ascii.eqb c newline) && single_line s'
  end.

End pystr.

(** ** The collaborators outside the program *)

(** What the completion provider answers to one request: a message with its
    token usage, or one of the two failures the client tells apart
    ([anthropic.RateLimitError] is caught before [anthropic.APIError]). *)
Inductive ProviderReply : Type :=
| Response (text : string) (input_tokens output_tokens : Z)
| RateLimitError (msg : string)
| APIError (msg : string).

(** The arguments of [client.messages.create]. *)
Record ProviderRequest : Type := {
  req_model : string;
  req_max_tokens : Z;
  req_temperature : Q;
  req_system : string;
  req_messages : list (string * string)
}.

(** Everything the program calls but does not define.  [Ext] is the state
    of the outside world (network, clock, random source); [Model] is the type
    of pydantic model instances.  Wall-clock readings are rationals. *)
Class Runtime : Type := {
  Ext : Type;
  Model : Type;
  (** [time.time()] and [datetime.utcnow()] *)
  time_time : Ext -> Q;
  utcnow : Ext -> Q;
  (** [json.loads(s)]: the value, or the text of the [JSONDecodeError] *)
  json_loads : string -> pyval + string;
  (** [json.dumps(v, indent=2)] *)
  json_dumps : pyval -> string;
  (** [instance.model_dump()] always builds a dict *)
  model_dump : Model -> list (string * pyval);
  (** [await client.messages.create(...)] *)
  messages_create : ProviderRequest -> Ext -> ProviderReply * Ext;
  (** [client.post(url, json=payload)]: [None] when the call returns,
      [Some e] when it raises an exception whose text is [e] *)
  httpx_post : string -> pyval -> Ext -> option string * Ext;
  (** [str(uuid.uuid4())] *)
  uuid4 : Ext -> string * Ext
}.

(** A pydantic model class, used as a schema. *)
Record Schema `{Runtime} : Type := {
  (** [cls.model_validate(data)]: the instance, or the text of the error *)
  model_validate : pyval -> Model + string;
  (** [cls.model_json_schema()] *)
  model_json_schema : pyval
}.

(** ** src/skills/base.py *)

Module base.

Inductive SkillErrorType : Type :=
| VALIDATION_INPUT
| VALIDATION_OUTPUT
| API_ERROR
| RATE_LIMIT
| TIMEOUT
| CONFIDENCE_LOW
| SOURCE_NOT_FOUND.

(** The [.value] of a member of the enum. *)
Definition value (e : SkillErrorType) : string :=
  match e with
  | VALIDATION_INPUT => "validation_input"
  | VALIDATION_OUTPUT => "validation_output"
  | API_ERROR => "api_error"
  | RATE_LIMIT => "rate_limit"
  | TIMEOUT => "timeout"
  | CONFIDENCE_LOW => "confidence_low"
  | SOURCE_NOT_FOUND => "source_not_found"
  end.

#[global] Instance SkillErrorType_eq_dec : EqDecision SkillErrorType.
Proof. solve_decision. Defined.

(** The dataclass [SkillResult]; [tokens_used] and [latency_ms] default
    to 0, [error_type] and [error_message] to [None]. *)
Module SkillResult.
Record t : Type := make {
  success : bool;
  output : pyval;
  error_type : option SkillErrorType;
  error_message : option string;
  tokens_used : Z;
  latency_ms : Z
}.

(** The assignment [r.latency_ms = v]. *)
Definition set_latency_ms (r : t) (v : Z) : t :=
  make (success r) (output r) (error_type r) (error_message r)
       (tokens_used r) v.
End SkillResult.

(** What the program does that can be seen from outside, in order. *)
Inductive Event `{Runtime} : Type :=
| EvExecute (skill : string) (validated_input : Model)
| EvPost (url : string) (payload : pyval)
| EvPrint (line : string).

(** The outside world together with the record of what was done to it. *)
Record World `{Runtime} : Type := {
  ext : Ext;
  trace : list Event
}.

(** The class [BaseSkill]; [execute] is the abstract method, a coroutine
    that may read and change the outside world. *)
Record BaseSkill `{Runtime} : Type := {
  name : string;
  description : string;
  input_schema : Schema;
  output_schema : Schema;
  tools : list pyval;
  system_prompt : option string;
  execute : Model -> Ext -> SkillResult.t * Ext
}.

Section methods.
Context `{Runtime}.

(** The pair [(is_valid, validated_or_error)] is a sum: [inl validated]
    stands for [(True, validated)] and [inr msg] for [(False, msg)]. *)
Definition validate_input (self : BaseSkill) (data : pyval) : Model + string :=
  model_validate (input_schema self) data.

Definition validate_output (self : BaseSkill) (data : pyval) : Model + string :=
  model_validate (output_schema self) data.

(** [await self.execute(validated)], leaving a mark in the trace. *)
Definition call_execute (self : BaseSkill) (validated : Model) (w : World)
  : SkillResult.t * World :=
  let '(r, e) := execute self validated (ext w) in
  (r, {| ext := e; trace := trace w ++ [EvExecute (name self) validated] |}).

(** The latency [run] writes into the outcome of [execute]: the wall
    time from the start of [run], in world [w], to the return of
    [execute], in outside state [e]. *)
Definition measured (w : World) (e : Ext) : Z :=
  pystr.int ((time_time e - time_time (ext w)) * 1000).

(** The classification of an outcome: the error type of a failure. *)
Definition classification (r : SkillResult.t) : option SkillErrorType :=
  if SkillResult.success r then None else SkillResult.error_type r.

Definition run (self : BaseSkill) (raw_input : pyval) (w : World)
  : SkillResult.t * World :=
  let start := time_time (ext w) in
  match validate_input self raw_input with
  | inr result =>
      (SkillResult.make false PyNone (Some VALIDATION_INPUT) (Some result) 0 0, w)
  | inl result =>
      let '(skill_result, w) := call_execute self result w in
      let skill_result :=
        SkillResult.set_latency_ms skill_result
          (pystr.int ((time_time (ext w) - start) * 1000)) in
      if SkillResult.success skill_result && truthy (SkillResult.output skill_result)
      then
        match validate_output self (SkillResult.output skill_result) with
        | inr validated =>
            (SkillResult.make false
               (SkillResult.output skill_result)
               (Some VALIDATION_OUTPUT)
               (Some validated)
               (SkillResult.tokens_used skill_result)
               (SkillResult.latency_ms skill_result), w)
        | inl _ => (skill_result, w)
        end
      else (skill_result, w)
  end.

End methods.

End base.

(** ** src/skills/claude_client.py *)

Module claude_client.
Import base.

Section client.
Context `{Runtime}.

(** The instruction appended to the system prompt. *)
Definition json_instruction (output_schema : Schema) : string :=
  "

IMPORTANT: Respond with ONLY valid JSON. No markdown, no explanation, no code blocks.
The JSON must match this schema:
" +:+ json_dumps (model_json_schema output_schema).

(** The handling of a fenced answer: when the text starts with the fence
    marker, [lines[1:-1]] of its lines are joined again. *)
Definition strip_code_block (raw_text : string) : string :=
  if pystr.startswith raw_text pystr.fence then
    let lines := pystr.split_lines raw_text in
    pystr.join_lines (pystr.slice lines 1 (-1))
  else raw_text.

(** The text that reaches [json.loads] for a given answer text. *)
Definition text_to_parse (text : string) : string :=
  strip_code_block (pystr.strip text).

(** What happens once the text has been through [json.loads]. *)
Definition parse_outcome (output_schema : Schema) (raw_text : string)
    (tokens : Z) (loaded : pyval + string) : SkillResult.t :=
  match loaded with
  | inr e =>
      SkillResult.make false
        (PyDict [("raw_response", PyStr raw_text)])
        (Some VALIDATION_OUTPUT)
        (Some ("Invalid JSON from Claude: " +:+ e))
        tokens 0
  | inl parsed =>
      match model_validate output_schema parsed with
      | inl validated =>
          SkillResult.make true (PyDict (model_dump validated)) None None tokens 0
      | inr e =>
          SkillResult.make false parsed
            (Some VALIDATION_OUTPUT)
            (Some ("Schema validation failed: " +:+ e))
            tokens 0
      end
  end.

Definition call_claude_structured
    (prompt : string) (output_schema : Schema)
    (system_prompt : option string) (model : string)
    (max_tokens : Z) (temperature : Q) (e : Ext) : SkillResult.t * Ext :=
  let messages := [("user", prompt)] in
  let full_system := default EmptyString system_prompt +:+ json_instruction output_schema in
  let '(response, e) :=
    messages_create
      {| req_model := model; req_max_tokens := max_tokens;
         req_temperature := temperature; req_system := full_system;
         req_messages := messages |} e in
  match response with
  | Response text input_tokens output_tokens =>
      let raw_text := text_to_parse text in
      (parse_outcome output_schema raw_text (input_tokens + output_tokens)
         (json_loads raw_text), e)
  | RateLimitError msg =>
      (SkillResult.make false PyNone (Some RATE_LIMIT) (Some msg) 0 0, e)
  | APIError msg =>
      (SkillResult.make false PyNone (Some API_ERROR) (Some msg) 0 0, e)
  end.

End client.
End claude_client.

(** ** src/skills/registry.py *)

Module registry.
Section registry.
Context `{Runtime}.

(** [SKILL_REGISTRY.get(name)]; the registry dict is passed along. *)
Definition get_skill (SKILL_REGISTRY : gmap string base.BaseSkill)
    (name : string) : option base.BaseSkill :=
  SKILL_REGISTRY !! name.

Definition register_skill (SKILL_REGISTRY : gmap string base.BaseSkill)
    (skill : base.BaseSkill) : gmap string base.BaseSkill :=
  <[base.name skill := skill]> SKILL_REGISTRY.

(** [name in SKILL_REGISTRY] *)
Definition registered (SKILL_REGISTRY : gmap string base.BaseSkill)
    (name : string) : bool :=
  bool_decide (is_Some (SKILL_REGISTRY !! name)).

End registry.
End registry.

(** ** src/db/models.py *)

Module models.

Inductive BatchStatus : Type := QUEUED | PROCESSING | COMPLETED | FAILED.

Definition value (st : BatchStatus) : string :=
  match st with
  | QUEUED => "queued"
  | PROCESSING => "processing"
  | COMPLETED => "completed"
  | FAILED => "failed"
  end.

(** A row of [batch_jobs].  The status column holds the [.value] of a
    [BatchStatus]; the two timestamps kept by the database server are
    left out. *)
Module BatchJob.
Record t : Type := make {
  id : string;
  skill_name : string;
  status : string;
  total_items : Z;
  completed_items : Z;
  failed_items : Z
}.
End BatchJob.

(** A row of [batch_items]; [success] is NULL until the item is processed. *)
Module BatchItem.
Record t : Type := make {
  id : string;
  batch_id : string;
  input_data : pyval;
  output_data : pyval;
  success : option bool;
  error_type : option string;
  error_message : option string;
  tokens_used : Z;
  latency_ms : Z;
  processed_at : option Q
}.
End BatchItem.

End models.

(** ** src/db/connection.py *)

Module connection.
Import models.

(** The two tables, keyed by their primary key. *)
Record DB : Type := {
  batch_jobs : gmap string BatchJob.t;
  batch_items : gmap string BatchItem.t
}.

Definition empty_db : DB := {| batch_jobs := ∅; batch_items := ∅ |}.

(** An INSERT of a primary key that is already there raises. *)
Definition IntegrityError : string := "IntegrityError".

Definition create_batch_job (batch_id skill_name : string) (total_items : Z)
    (d : DB) : DB + string :=
  let job := BatchJob.make batch_id skill_name (value PROCESSING) total_items 0 0 in
  match batch_jobs d !! batch_id with
  | Some _ => inr IntegrityError
  | None => inl {| batch_jobs := <[batch_id := job]> (batch_jobs d);
                   batch_items := batch_items d |}
  end.

Definition create_batch_item (batch_id item_id : string) (input_data : pyval)
    (d : DB) : DB + string :=
  let item := BatchItem.make item_id batch_id input_data PyNone None None None 0 0 None in
  match batch_items d !! item_id with
  | Some _ => inr IntegrityError
  | None => inl {| batch_jobs := batch_jobs d;
                   batch_items := <[item_id := item]> (batch_items d) |}
  end.

(** The three UPDATE statements on a job row. *)
Definition incr_completed (j : BatchJob.t) : BatchJob.t :=
  BatchJob.make (BatchJob.id j) (BatchJob.skill_name j) (BatchJob.status j)
    (BatchJob.total_items j) (BatchJob.completed_items j + 1) (BatchJob.failed_items j).

Definition incr_failed (j : BatchJob.t) : BatchJob.t :=
  BatchJob.make (BatchJob.id j) (BatchJob.skill_name j) (BatchJob.status j)
    (BatchJob.total_items j) (BatchJob.completed_items j) (BatchJob.failed_items j + 1).

Definition set_status (st : string) (j : BatchJob.t) : BatchJob.t :=
  BatchJob.make (BatchJob.id j) (BatchJob.skill_name j) st
    (BatchJob.total_items j) (BatchJob.completed_items j) (BatchJob.failed_items j).

(** The UPDATE on an item row. *)
Definition set_result (success : bool) (output : pyval)
    (error_type error_message : option string) (tokens_used latency_ms : Z)
    (now : Q) (it : BatchItem.t) : BatchItem.t :=
  BatchItem.make (BatchItem.id it) (BatchItem.batch_id it) (BatchItem.input_data it)
    output (Some success) error_type error_message tokens_used latency_ms (Some now).

(** One session, committed at the end: the item row, the counter, then
    the completion check on the row read back. *)
Definition update_batch_item (batch_id item_id : string) (success : bool)
    (output : pyval) (error_type error_message : option string)
    (tokens_used latency_ms : Z) (now : Q) (d : DB) : DB :=
  let items :=
    alter (set_result success output error_type error_message
             tokens_used latency_ms now) item_id (batch_items d) in
  let jobs :=
    if success then alter incr_completed batch_id (batch_jobs d)
    else alter incr_failed batch_id (batch_jobs d) in
  let jobs :=
    match jobs !! batch_id with
    | Some job =>
        if BatchJob.total_items job <=? BatchJob.completed_items job + BatchJob.failed_items job
        then alter (set_status (value COMPLETED)) batch_id jobs
        else jobs
    | None => jobs
    end in
  {| batch_jobs := jobs; batch_items := items |}.

(** What [update_batch_item] does to the job row it finds, in two
    moves: one counter goes up by one, then the completion test is made
    on the new counters. *)
Definition counted (success : bool) (j : BatchJob.t) : BatchJob.t :=
  if success then incr_completed j else incr_failed j.

Definition checked (j : BatchJob.t) : BatchJob.t :=
  if BatchJob.total_items j <=? BatchJob.completed_items j + BatchJob.failed_items j
  then set_status (value COMPLETED) j else j.

Definition update_batch_job_status (batch_id : string) (st : BatchStatus)
    (d : DB) : DB :=
  {| batch_jobs := alter (set_status (value st)) batch_id (batch_jobs d);
     batch_items := batch_items d |}.

(** The dict returned by [get_batch_status], without [created_at]. *)
Module StatusDict.
Record t : Type := make {
  status : string;
  total : Z;
  completed : Z;
  failed : Z
}.
End StatusDict.

Definition get_batch_status (batch_id : string) (d : DB) : option StatusDict.t :=
  match batch_jobs d !! batch_id with
  | None => None
  | Some job =>
      Some (StatusDict.make (BatchJob.status job) (BatchJob.total_items job)
              (BatchJob.completed_items job) (BatchJob.failed_items job))
  end.

(** One entry of the list returned by [get_batch_results]. *)
Module ResultDict.
Record t : Type := make {
  item_id : string;
  input : pyval;
  output : pyval;
  success : option bool;
  error_type : option string;
  error_message : option string;
  tokens_used : Z;
  latency_ms : Z
}.
End ResultDict.

Definition result_dict (item : BatchItem.t) : ResultDict.t :=
  ResultDict.make (BatchItem.id item) (BatchItem.input_data item)
    (BatchItem.output_data item) (BatchItem.success item)
    (BatchItem.error_type item) (BatchItem.error_message item)
    (BatchItem.tokens_used item) (BatchItem.latency_ms item).

(** The SELECT has no ORDER BY; the rows are taken in the order of the
    table. *)
Definition get_batch_results (batch_id : string) (d : DB) : list ResultDict.t :=
  result_dict <$>
    filter (fun item => BatchItem.batch_id item = batch_id)
      ((map_to_list (batch_items d)).*2).

End connection.

(** ** The task queue

    The part of Celery the tasks rely on: messages on a broker, and the
    contract of [Task.retry]. *)

Module celery.

(** A task together with its arguments. *)
Inductive Signature : Type :=
| process_skill_batch_s (batch_id skill_name : string) (inputs : list pyval)
    (webhook_url : option string)
| process_single_item_s (batch_id item_id skill_name : string) (input_data : pyval)
| notify_completion_s (batch_id webhook_url : string).

(** A message waiting on the broker; [msg_retries] is what the task reads
    as [self.request.retries]. *)
Record Message : Type := {
  msg_sig : Signature;
  msg_retries : Z;
  msg_countdown : option Z
}.

(** How one run of a task ends: it returns, it raises, or it raises
    Celery's [Retry] after the message was sent again. *)
Inductive TaskResult : Type :=
| Returned (v : pyval)
| Raised (exc : string)
| Retried.

(** [sig.apply_async(countdown=...)] and [sig.delay()] *)
Definition apply_async (sig : Signature) (countdown : option Z)
    (broker : list Message) : list Message :=
  broker ++ [{| msg_sig := sig; msg_retries := 0; msg_countdown := countdown |}].

(** [group(tasks).apply_async()] *)
Definition group_apply_async (tasks : list Signature)
    (broker : list Message) : list Message :=
  foldl (fun b sig => apply_async sig None b) broker tasks.

(** [raise self.retry(exc=exc, countdown=countdown)] in a task declared
    with [max_retries]: Celery computes [retries = request.retries + 1],
    raises [exc] when [retries > max_retries], and otherwise sends the same
    signature again with that retry count and raises [Retry]. *)
Definition retry (max_retries : Z) (self : Message) (exc : string)
    (countdown : Z) (broker : list Message) : TaskResult * list Message :=
  let retries := msg_retries self + 1 in
  if max_retries <? retries then (Raised exc, broker)
  else (Retried,
        broker ++ [{| msg_sig := msg_sig self; msg_retries := retries;
                      msg_countdown := Some countdown |}]).

(** The message [apply_async] puts on the broker for a signature. *)
Definition fresh_message (countdown : option Z) (sig : Signature) : Message :=
  {| msg_sig := sig; msg_retries := 0; msg_countdown := countdown |}.

(** The message [self.retry] sends when it does. *)
Definition resent (self : Message) (countdown : Z) : Message :=
  {| msg_sig := msg_sig self; msg_retries := msg_retries self + 1;
     msg_countdown := Some countdown |}.

End celery.

(** ** src/queue/tasks.py *)

Module tasks.
Import base models connection celery.

(** The state the tasks work on. *)
Record System `{Runtime} : Type := {
  world : World;
  db : DB;
  broker : list Message
}.

(** [max_retries] of the decorator of [process_single_item]. *)
Definition process_single_item_max_retries : Z := 5.

Section tasks.
Context `{Runtime} (SKILL_REGISTRY : gmap string BaseSkill).

(** The loop of [process_skill_batch] over [enumerate(inputs)], from
    index [i] on: one item row and one task signature per input.  An
    exception leaves the rows committed so far. *)
Fixpoint queue_items (batch_id skill_name : string) (i : nat)
    (inputs : list pyval) (tasks : list Signature) (d : DB)
  : (list Signature + string) * DB :=
  match inputs with
  | [] => (inl tasks, d)
  | input_data :: rest =>
      let item_id := batch_id +:+ ":" +:+ pretty i in
      match create_batch_item batch_id item_id input_data d with
      | inr e => (inr e, d)
      | inl d =>
          queue_items batch_id skill_name (S i) rest
            (tasks ++ [process_single_item_s batch_id item_id skill_name input_data]) d
      end
  end.

Definition process_skill_batch (self : Message)
    (batch_id skill_name : string) (inputs : list pyval)
    (webhook_url : option string) (s : System) : TaskResult * System :=
  match registry.get_skill SKILL_REGISTRY skill_name with
  | None => (Raised ("Unknown skill: " +:+ skill_name), s)
  | Some skill =>
      match create_batch_job batch_id skill_name (Z.of_nat (length inputs)) (db s) with
      | inr e => (Raised e, s)
      | inl d =>
          match queue_items batch_id skill_name 0 inputs [] d with
          | (inr e, d) =>
              (Raised e, {| world := world s; db := d; broker := broker s |})
          | (inl tasks, d) =>
              let b := group_apply_async tasks (broker s) in
              let b :=
                match webhook_url with
                | Some url =>
                    if truthy (PyStr url)
                    then apply_async (notify_completion_s batch_id url) (Some 10) b
                    else b
                | None => b
                end in
              (Returned (PyDict [("batch_id", PyStr batch_id);
                                 ("items_queued", PyInt (Z.of_nat (length inputs)))]),
               {| world := world s; db := d; broker := b |})
          end
      end
  end.

Definition process_single_item (self : Message)
    (batch_id item_id skill_name : string) (input_data : pyval)
    (s : System) : TaskResult * System :=
  match registry.get_skill SKILL_REGISTRY skill_name with
  | None => (Raised ("Unknown skill: " +:+ skill_name), s)
  | Some skill =>
      let '(result, w) := run skill input_data (world s) in
      if negb (SkillResult.success result)
         && bool_decide (SkillResult.error_type result = Some RATE_LIMIT)
      then
        let '(r, b) :=
          retry process_single_item_max_retries self "Rate limited"
            (30 * (msg_retries self + 1)) (broker s) in
        (r, {| world := w; db := db s; broker := b |})
      else if negb (SkillResult.success result)
              && bool_decide (SkillResult.error_type result = Some API_ERROR)
      then
        let '(r, b) :=
          retry process_single_item_max_retries self
            (default "None" (SkillResult.error_message result)) 10 (broker s) in
        (r, {| world := w; db := db s; broker := b |})
      else
        let d :=
          update_batch_item batch_id item_id
            (SkillResult.success result)
            (SkillResult.output result)
            (base.value <$> SkillResult.error_type result)
            (SkillResult.error_message result)
            (SkillResult.tokens_used result)
            (SkillResult.latency_ms result)
            (utcnow (ext w)) (db s) in
        (Returned (PyDict [("item_id", PyStr item_id);
                           ("success", PyBool (SkillResult.success result));
                           ("error_type",
                            from_option PyStr PyNone
                              (base.value <$> SkillResult.error_type result))]),
         {| world := w; db := d; broker := broker s |})
  end.

(** The database after [process_single_item] has stored [result], the
    world being [w] at that point. *)
Definition stored (batch_id item_id : string) (result : SkillResult.t)
    (w : World) (d : DB) : DB :=
  update_batch_item batch_id item_id
    (SkillResult.success result) (SkillResult.output result)
    (base.value <$> SkillResult.error_type result)
    (SkillResult.error_message result)
    (SkillResult.tokens_used result) (SkillResult.latency_ms result)
    (utcnow (ext w)) d.

(** The database after the outcomes of several items of one batch have
    been stored one after the other. *)
Definition stored_all (batch_id : string)
    (outcomes : list (string * SkillResult.t * World)) (d : DB) : DB :=
  foldl (fun d '(item_id, result, w) => stored batch_id item_id result w d)
    d outcomes.

(** The JSON body of the webhook. *)
Definition webhook_payload (batch_id : string) (st : StatusDict.t) : pyval :=
  PyDict [("batch_id", PyStr batch_id);
          ("status", PyStr "completed");
          ("total", PyInt (StatusDict.total st));
          ("completed", PyInt (StatusDict.completed st));
          ("failed", PyInt (StatusDict.failed st))].

(** The [try] block: one POST; an exception is printed and swallowed. *)
Definition send_webhook (webhook_url : string) (payload : pyval) (w : World) : World :=
  let '(exc, e) := httpx_post webhook_url payload (ext w) in
  let tr := trace w ++ [EvPost webhook_url payload] in
  match exc with
  | None => {| ext := e; trace := tr |}
  | Some msg =>
      {| ext := e; trace := tr ++ [EvPrint ("Webhook notification failed: " +:+ msg)] |}
  end.

Definition notify_completion (batch_id webhook_url : string) (s : System)
  : TaskResult * System :=
  let recheck :=
    (Returned PyNone,
     {| world := world s; db := db s;
        broker := apply_async (notify_completion_s batch_id webhook_url)
                    (Some 30) (broker s) |}) in
  match get_batch_status batch_id (db s) with
  | Some status =>
      if String.eqb (StatusDict.status status) "completed" then
        (Returned PyNone,
         {| world := send_webhook webhook_url (webhook_payload batch_id status) (world s);
            db := db s; broker := broker s |})
      else recheck
  | None => recheck
  end.

(** A worker runs the task a message names. *)
Definition run_task (m : Message) (s : System) : TaskResult * System :=
  match msg_sig m with
  | process_skill_batch_s batch_id skill_name inputs webhook_url =>
      process_skill_batch m batch_id skill_name inputs webhook_url s
  | process_single_item_s batch_id item_id skill_name input_data =>
      process_single_item m batch_id item_id skill_name input_data s
  | notify_completion_s batch_id webhook_url =>
      notify_completion batch_id webhook_url s
  end.

End tasks.
End tasks.

(** ** src/api/main.py *)

Module main.
Import base celery tasks.

Module BatchSubmission.
Record t : Type := make {
  skill_name : string;
  inputs : list pyval;
  webhook_url : option string
}.
End BatchSubmission.

Module BatchResponse.
Record t : Type := make {
  batch_id : string;
  status : string;
  item_count : Z;
  message : string
}.
End BatchResponse.

Module HTTPException.
Record t : Type := make {
  status_code : Z;
  detail : string
}.
End HTTPException.

Section endpoints.
Context `{Runtime} (SKILL_REGISTRY : gmap string BaseSkill).

(** The common tail of the two endpoints: a fresh id, then
    [process_skill_batch.delay(...)]. *)
Definition queue_batch (skill_name : string) (inputs : list pyval)
    (webhook_url : option string) (s : System) : string * System :=
  let '(batch_id, e) := uuid4 (ext (world s)) in
  (batch_id,
   {| world := {| ext := e; trace := trace (world s) |};
      db := db s;
      broker := apply_async
                  (process_skill_batch_s batch_id skill_name inputs webhook_url)
                  None (broker s) |}).

Definition submit_batch (submission : BatchSubmission.t) (s : System)
  : (BatchResponse.t + HTTPException.t) * System :=
  let skill_name := BatchSubmission.skill_name submission in
  if negb (registry.registered SKILL_REGISTRY skill_name) then
    (inr (HTTPException.make 400
            ("Unknown skill: " +:+ skill_name
             +:+ ". Use GET /skills to list available skills.")), s)
  else
    let '(batch_id, s) :=
      queue_batch skill_name (BatchSubmission.inputs submission)
        (BatchSubmission.webhook_url submission) s in
    (inl (BatchResponse.make batch_id "queued"
            (Z.of_nat (length (BatchSubmission.inputs submission)))
            ("Batch queued for processing with skill '" +:+ skill_name +:+ "'")), s).

(** [inputs] is [list(csv.DictReader(...))], the rows of the upload. *)
Definition submit_csv_batch (skill_name : string) (inputs : list pyval)
    (s : System) : (BatchResponse.t + HTTPException.t) * System :=
  if negb (registry.registered SKILL_REGISTRY skill_name) then
    (inr (HTTPException.make 400 ("Unknown skill: " +:+ skill_name)), s)
  else if negb (truthy (PyList inputs)) then
    (inr (HTTPException.make 400 "CSV file is empty"), s)
  else
    let '(batch_id, s) := queue_batch skill_name inputs None s in
    (inl (BatchResponse.make batch_id "queued"
            (Z.of_nat (length inputs))
            ("CSV batch queued (" +:+ pretty (length inputs)
             +:+ " rows) for skill '" +:+ skill_name +:+ "'")), s).

End endpoints.
(** The answer of [GET /batch/{batch_id}], without [created_at]; the key
    [results] is only there for a completed batch. *)
Module StatusResponse.
Record t : Type := make {
  batch_id : string;
  status : string;
  total : Z;
  completed : Z;
  failed : Z;
  results : option (list connection.ResultDict.t)
}.
End StatusResponse.

Definition get_batch_status (batch_id : string) (d : connection.DB)
  : StatusResponse.t + HTTPException.t :=
  match connection.get_batch_status batch_id d with
  | None => inr (HTTPException.make 404 "Batch not found")
  | Some status =>
      inl (StatusResponse.make batch_id
             (connection.StatusDict.status status)
             (connection.StatusDict.total status)
             (connection.StatusDict.completed status)
             (connection.StatusDict.failed status)
             (if String.eqb (connection.StatusDict.status status) "completed"
              then Some (connection.get_batch_results batch_id d)
              else None))
  end.

End main.

(** ** src/skills/url_summarizer.py *)

Module url_summarizer.
Import base.

(** How [client.get(url, follow_redirects=True)] with [raise_for_status()]
    ends: the text of the page, a timeout, or another HTTP error
    ([httpx.TimeoutException] is caught before [httpx.HTTPError]). *)
Inductive FetchReply : Type :=
| Fetched (text : string)
| TimeoutException
| HTTPError (msg : string).

(** What this skill calls beyond [Runtime]: the HTTP client, the string
    form of the validated URL, and its two pydantic models. *)
Class Web `{Runtime} : Type := {
  httpx_get : string -> Ext -> FetchReply * Ext;
  str_url : Model -> string;
  UrlSummarizerInput : Schema;
  UrlSummarizerOutput : Schema
}.

Definition system_prompt : string :=
  "You are a content analyzer. Given webpage content, extract structured information.

Be factual and concise. If content is unclear or missing, make reasonable inferences but note uncertainty.

Always respond with valid JSON matching the exact schema requested.".

(** The limit on the page text that goes into the prompt. *)
Definition content_limit : N := 50000.

(** The defaults of [call_claude_structured]. *)
Definition default_model : string := "claude-sonnet-4-20250514".
Definition default_max_tokens : Z := 4096.
Definition default_temperature : Q := 0%Q.

Definition prompt_for (url content : string) : string :=
  "Analyze this webpage content and provide a structured summary.

URL: " +:+ url +:+ "

CONTENT:
" +:+ content +:+ "

Respond with JSON matching this exact structure:
- url: the original URL
- title: page title or inferred title
- summary: 2-3 sentence summary
- key_points: array of 3-5 key points
- content_type: one of (article, product, documentation, blog, other)
- word_count_estimate: estimated word count
- language: language code (en, es, etc)".

Section skill.
Context `{Web}.

Definition execute (validated_input : Model) (e : Ext) : SkillResult.t * Ext :=
  let url := str_url validated_input in
  let '(reply, e) := httpx_get url e in
  match reply with
  | TimeoutException =>
      (SkillResult.make false PyNone (Some TIMEOUT)
         (Some ("Timeout fetching URL: " +:+ url)) 0 0, e)
  | HTTPError msg =>
      (SkillResult.make false PyNone (Some SOURCE_NOT_FOUND)
         (Some ("HTTP error fetching URL: " +:+ msg)) 0 0, e)
  | Fetched text =>
      let content := pystr.prefix_chars content_limit text in
      claude_client.call_claude_structured (prompt_for url content)
        UrlSummarizerOutput (Some system_prompt)
        default_model default_max_tokens default_temperature e
  end.

(** The singleton instance. *)
Definition url_summarizer : BaseSkill := {|
  name := "url_summarizer";
  description := "Fetch a URL and produce a structured summary with key points";
  input_schema := UrlSummarizerInput;
  output_schema := UrlSummarizerOutput;
  tools := [];
  base.system_prompt := Some system_prompt;
  base.execute := execute
|}.

(** The registry as [registry.py] sets it up. *)
Definition SKILL_REGISTRY : gmap string BaseSkill :=
  {["url_summarizer" := url_summarizer]}.

End skill.
End url_summarizer.

(** ** The running system

    Requests arrive at the API, workers take messages off the broker in any
    order, and the outside world moves on its own. *)

Module system.
Import base connection celery tasks.

Section system.
Context `{Runtime} (SKILL_REGISTRY : gmap string BaseSkill).

Definition initial (e : Ext) : System :=
  {| world := {| ext := e; trace := [] |}; db := empty_db; broker := [] |}.

Inductive step : System -> System -> Prop :=
| step_submit (submission : main.BatchSubmission.t) (s : System) :
    step s (main.submit_batch SKILL_REGISTRY submission s).2
| step_submit_csv (skill_name : string) (rows : list pyval) (s : System) :
    step s (main.submit_csv_batch SKILL_REGISTRY skill_name rows s).2
| step_task (m : Message) (before after : list Message) (s : System) :
    broker s = before ++ m :: after ->
    step s (run_task SKILL_REGISTRY m
              {| world := world s; db := db s; broker := before ++ after |}).2
| step_outside (e : Ext) (s : System) :
    step s {| world := {| ext := e; trace := trace (world s) |};
              db := db s; broker := broker s |}.

Inductive reachable : System -> Prop :=
| reachable_initial (e : Ext) : reachable (initial e)
| reachable_step (s s' : System) : reachable s -> step s s' -> reachable s'.

(** Any number of steps. *)
Definition steps : System -> System -> Prop := rtc step.

End system.

(** *** What is in flight for a batch *)

(** How many elements of a list satisfy a test. *)
Fixpoint count {A} (P : A -> bool) (l : list A) : Z :=
  match l with
  | [] => 0
  | x :: l => (if P x then 1 else 0) + count P l
  end.

(** The message is an item task of batch [b]. *)
Definition is_item_of (b : string) (m : Message) : bool :=
  match msg_sig m with
  | process_single_item_s batch_id _ _ _ => bool_decide (batch_id = b)
  | _ => false
  end.

(** The message is a completion check of batch [b]. *)
Definition is_check_of (b : string) (m : Message) : bool :=
  match msg_sig m with
  | notify_completion_s batch_id _ => bool_decide (batch_id = b)
  | _ => false
  end.

(** The event is a webhook delivery for batch [b]. *)
Definition is_delivery_of `{Runtime} (b : string) (ev : Event) : bool :=
  match ev with
  | EvPost _ (PyDict ((k, PyStr batch_id) :: _)) =>
      String.eqb k "batch_id" && bool_decide (batch_id = b)
  | _ => false
  end.

Section in_flight.
Context `{Runtime}.
Import models.

Definition pending_items (b : string) (s : System) : Z :=
  count (is_item_of b) (broker s).

Definition pending_checks (b : string) (s : System) : Z :=
  count (is_check_of b) (broker s).

Definition deliveries (b : string) (s : System) : Z :=
  count (is_delivery_of b) (trace (world s)).

(** The bookkeeping of one batch id: nothing is in flight for a batch
    without a job row; the counters of a job row leave room for the
    items still on the broker; the row is completed exactly when the
    counters have reached a total that is not zero; and at most one
    delivery has been made or is still to be made. *)
Definition batch_ok (s : System) (b : string) : Prop :=
  match batch_jobs (db s) !! b with
  | None =>
      pending_items b s = 0 /\ pending_checks b s = 0 /\ deliveries b s = 0
  | Some j =>
      0 <= BatchJob.completed_items j /\
      0 <= BatchJob.failed_items j /\
      BatchJob.completed_items j + BatchJob.failed_items j + pending_items b s
        <= BatchJob.total_items j /\
      (BatchJob.status j = value PROCESSING /\
         (BatchJob.completed_items j + BatchJob.failed_items j < BatchJob.total_items j
          \/ BatchJob.completed_items j + BatchJob.failed_items j = 0)
       \/
       BatchJob.status j = value COMPLETED /\
         BatchJob.completed_items j + BatchJob.failed_items j = BatchJob.total_items j /\
         0 < BatchJob.total_items j) /\
      deliveries b s + pending_checks b s <= 1
  end.

Definition invariant (s : System) : Prop := forall b, batch_ok s b.

End in_flight.
(** The retry count of a message is one the item task can have reached. *)
Definition retries_bounded (m : Message) : Prop :=
  0 <= msg_retries m <= process_single_item_max_retries.

(** A delivery in the trace reports a completed row of the database, with
    the counts of that row. *)
Definition delivery_matches `{Runtime} (d : DB) (ev : Event) : Prop :=
  match ev with
  | EvPost _ payload =>
      exists (b : string) (j : models.BatchJob.t),
        batch_jobs d !! b = Some j /\
        models.BatchJob.status j = models.value models.COMPLETED /\
        payload = webhook_payload b
                    (StatusDict.make (models.BatchJob.status j)
                       (models.BatchJob.total_items j)
                       (models.BatchJob.completed_items j)
                       (models.BatchJob.failed_items j))
  | _ => True
  end.

(** The messages a batch task sends when it returns: one item task per
    input, numbered from 0 in the order of the inputs, then the completion
    check when a callback target that is not empty was given. *)
Definition batch_messages_of (batch_id skill_name : string)
    (inputs : list pyval) (webhook_url : option string) : list Message :=
  imap (fun k input_data =>
          fresh_message None
            (process_single_item_s batch_id
               (batch_id +:+ ":" +:+ pretty k) skill_name input_data)) inputs
  ++ match webhook_url with
     | Some url =>
         if String.eqb url EmptyString then []
         else [fresh_message (Some 10) (notify_completion_s batch_id url)]
     | None => []
     end.

End system.

(** Reads the three counts of a state that is given by its parts. *)
Ltac counts :=
  unfold system.pending_items, system.pending_checks, system.deliveries in *;
  cbn [tasks.world tasks.db tasks.broker base.ext base.trace] in *.

(** ** A small concrete installation

    One runtime and a handful of skills on which the definitions above can be
    run: the outside world is a tick counter and the answers the provider
    still has in store; once it has run out of them the provider answers
    with a rate limit.  The webhook target refuses connections. *)

Module example.
Import base celery connection tasks.

(** One tick of the clock. *)
Definition tick (e : nat * list ProviderReply) : nat * list ProviderReply :=
  (S e.1, e.2).

#[local] Instance runtime : Runtime := {|
  Ext := nat * list ProviderReply;
  Model := pyval;
  time_time := fun e => inject_Z (Z.of_nat e.1);
  utcnow := fun e => inject_Z (Z.of_nat e.1);
  json_loads := fun s =>
    if String.eqb s "{}" then inl (PyDict []) else inr "Expecting value";
  json_dumps := fun _ => "{}";
  model_dump := fun m => match m with PyDict d => d | _ => [] end;
  messages_create := fun _ e =>
    match e.2 with
    | [] => (RateLimitError "429 too many requests", tick e)
    | reply :: replies => (reply, (S e.1, replies))
    end;
  httpx_post := fun _ _ e => (Some "connection refused", tick e);
  uuid4 := fun e => ("batch-" +:+ pretty e.1, tick e)
|}.

(** Accepts the dicts that start with a string under [key]. *)
Definition requires (key : string) : Schema := {|
  model_validate := fun v =>
    match v with
    | PyDict ((k, PyStr _) :: _) =>
        if String.eqb k key then inl v else inr (key +:+ ": Field required")
    | _ => inr (key +:+ ": Field required")
    end;
  model_json_schema := PyDict [("required", PyList [PyStr key])]
|}.

Definition skill (name : string)
    (execute : Model -> Ext -> SkillResult.t * Ext) : BaseSkill := {|
  base.name := name;
  description := name;
  input_schema := requires "url";
  output_schema := requires "title";
  tools := [];
  system_prompt := None;
  base.execute := execute
|}.

(** Reports success without any output. *)
Definition null_skill : BaseSkill :=
  skill "null" (fun _ e => (SkillResult.make true PyNone None None 7 0, tick e)).

(** Reports success with an empty dict. *)
Definition empty_skill : BaseSkill :=
  skill "empty" (fun _ e => (SkillResult.make true (PyDict []) None None 7 0, tick e)).

(** Reports success with an output that lacks the required field. *)
Definition untitled_skill : BaseSkill :=
  skill "untitled"
    (fun _ e => (SkillResult.make true (PyDict [("summary", PyStr "s")]) None None 7 0, tick e)).

(** Reports success with a well-formed output. *)
Definition titled_skill : BaseSkill :=
  skill "titled"
    (fun _ e => (SkillResult.make true (PyDict [("title", PyStr "t")]) None None 7 0, tick e)).

(** Asks the provider, which is rate limited. *)
Definition limited_skill : BaseSkill :=
  skill "limited"
    (fun _ e =>
       claude_client.call_claude_structured "Summarize" (requires "title")
         None "claude-sonnet-4-20250514" 4096 0%Q e).

Definition SKILL_REGISTRY : gmap string BaseSkill :=
  registry.register_skill
    (registry.register_skill
       (registry.register_skill ∅ titled_skill) limited_skill) empty_skill.

Definition good_input : pyval := PyDict [("url", PyStr "https://example.com/page")].
Definition bad_input : pyval := PyDict [("link", PyStr "not-a-url")].

Definition w0 : World := {| ext := (0%nat, []); trace := [] |}.
Definition s0 : System := system.initial (0%nat, []).

(** A fenced answer, and the same answer without the fence. *)
Definition fenced_answer : string :=
  pystr.fence +:+ "json" +:+ String pystr.newline
    ("{}" +:+ String pystr.newline pystr.fence).

(** Takes the first message off the broker and runs it. *)
Definition work (s : System) : System :=
  match broker s with
  | [] => s
  | m :: rest =>
      (run_task SKILL_REGISTRY m
         {| world := world s; db := db s; broker := rest |}).2
  end.

(** One input for the skill that answers well, with a callback target. *)
Definition submission : main.BatchSubmission.t :=
  main.BatchSubmission.make "titled" [good_input] (Some "http://hook").

(** The states after the submission, after the batch task, after the
    item task and after the completion check. *)
Definition submitted : System := (main.submit_batch SKILL_REGISTRY submission s0).2.
Definition queued : System := work submitted.
Definition processed : System := work queued.
Definition notified : System := work processed.

(** The item task of a rate-limited item, at its first run and after all
    its retries. *)
Definition limited_item : Signature :=
  process_single_item_s "batch-0" "batch-0:0" "limited" good_input.
Definition first_run : Message := fresh_message None limited_item.
Definition last_run : Message :=
  {| msg_sig := limited_item; msg_retries := 5; msg_countdown := Some 150 |}.

(** One input for the rate-limited skill, worked until the broker is
    empty: the batch task, then the item task and its five retries. *)
Definition limited_submission : main.BatchSubmission.t :=
  main.BatchSubmission.make "limited" [good_input] None.
Definition limited_queued : System :=
  work (main.submit_batch SKILL_REGISTRY limited_submission s0).2.
Definition exhausted : System := Nat.iter 6 work limited_queued.

(** The outcome of [run] for the rate-limited skill, and the world it
    leaves when started in the world of [limited_queued]. *)
Definition limited_result : SkillResult.t :=
  SkillResult.make false PyNone (Some RATE_LIMIT)
    (Some "429 too many requests") 0 1000.
Definition limited_world : World :=
  {| ext := (2%nat, []); trace := [EvExecute "limited" good_input] |}.

(** Accepts every dict. *)
Definition any_dict : Schema := {|
  model_validate := fun v =>
    match v with
    | PyDict _ => inl v
    | _ => inr "Input should be a valid dictionary"
    end;
  model_json_schema := PyDict [("type", PyStr "object")]
|}.

(** The web of the example: one page that answers, one that is slow,
    nothing else. *)
#[local] Instance web : url_summarizer.Web := {|
  url_summarizer.httpx_get := fun url e =>
    (if String.eqb url "https://example.com/page"
     then url_summarizer.Fetched "<html>Example</html>"
     else if String.eqb url "https://example.com/slow"
     then url_summarizer.TimeoutException
     else url_summarizer.HTTPError "404 Not Found", tick e);
  url_summarizer.str_url := fun m =>
    match m with
    | PyDict ((_, PyStr u) :: _) => u
    | _ => EmptyString
    end;
  url_summarizer.UrlSummarizerInput := requires "url";
  url_summarizer.UrlSummarizerOutput := any_dict
|}.

Definition slow_input : pyval := PyDict [("url", PyStr "https://example.com/slow")].

(** A world in which the provider has one answer in store, an empty
    object. *)
Definition answering : World :=
  {| ext := (0%nat, [Response "{}" 10 5]); trace := [] |}.

(** A fenced answer on a single line. *)
Definition one_line_answer : string := pystr.fence +:+ "{}" +:+ pystr.fence.

(** The batch task of the rate-limited batch, and the state it ran in. *)
Definition limited_batch : Message :=
  fresh_message None (process_skill_batch_s "batch-0" "limited" [good_input] None).
Definition limited_submitted : System :=
  {| world := world (main.submit_batch SKILL_REGISTRY limited_submission s0).2;
     db := db s0; broker := [] |}.

(** The rate-limited item after three runs. *)
Definition thrice_limited : System := Nat.iter 3 work limited_queued.

(** A state with the row of a batch of one slow page and its item task
    on the broker. *)
Definition slow_queued : System :=
  (process_skill_batch url_summarizer.SKILL_REGISTRY
     (fresh_message None
        (process_skill_batch_s "batch-9" "url_summarizer" [slow_input] None))
     "batch-9" "url_summarizer" [slow_input] None s0).2.

End example.

(** * Properties *)

Import base.

(** ** Lines of a text *)

Section lines.
Import pystr.

Lemma split_lines_not_nil (s : string) : split_lines s <> [].
Proof.
  destruct s as [|c s]; simpl; [discriminate|].
  destruct (Ascii.eqb c newline); [discriminate|].
  destruct (split_lines s); discriminate.
Qed.

Lemma join_lines_cons (l : string) (ls : list string) :
  ls <> [] -> join_lines (l :: ls) = l +:+ String newline (join_lines ls).
Proof. destruct ls; [congruence | reflexivity]. Qed.

(** Splitting at the line breaks and joining again gives the text back. *)
Lemma join_split_lines (s : string) : join_lines (split_lines s) = s.
Proof.
  induction s as [|c s IH]; [reflexivity|].
  cbn [split_lines].
  destruct (Ascii.eqb c newline) eqn:Hc.
  - apply Ascii.eqb_eq in Hc; subst c.
    rewrite join_lines_cons by apply split_lines_not_nil.
    rewrite IH. reflexivity.
  - destruct (split_lines s) as [|l ls] eqn:Hs.
    + exfalso. exact (split_lines_not_nil s Hs).
    + destruct ls as [|l' ls].
      * cbn in IH |- *. congruence.
      * rewrite join_lines_cons in IH |- * by discriminate.
        cbn. rewrite <- IH. reflexivity.
Qed.

Lemma slice_index_nonneg {A} (l : list A) (i : Z) :
  0 <= i -> slice_index l i = Nat.min (Z.to_nat i) (length l).
Proof.
  intros Hi. unfold slice_index.
  destruct (Z.ltb_spec i 0); lia.
Qed.

Lemma slice_index_neg {A} (l : list A) (i : Z) :
  i < 0 -> slice_index l i = (length l - Z.to_nat (- i))%nat.
Proof.
  intros Hi. unfold slice_index.
  destruct (Z.ltb_spec i 0); lia.
Qed.

(** [l[1:-1]] of a list with two ends is what lies between them. *)
Lemma slice_inner {A} (a z : A) (kept : list A) :
  slice (a :: kept ++ [z]) 1 (-1) = kept.
Proof.
  unfold slice.
  rewrite (slice_index_nonneg _ 1), (slice_index_neg _ (-1)) by lia.
  cbn [length]. rewrite length_app. cbn [length].
  replace (Nat.min (Z.to_nat 1) (S (length kept + 1))) with 1%nat by lia.
  replace (S (length kept + 1) - Z.to_nat (- -1) - 1)%nat with (length kept) by lia.
  cbn [drop]. rewrite drop_0, take_app_length. reflexivity.
Qed.

Lemma slice_short {A} (l : list A) :
  (length l <= 1)%nat -> slice l 1 (-1) = [].
Proof.
  intros Hl. unfold slice.
  rewrite (slice_index_nonneg _ 1), (slice_index_neg _ (-1)) by lia.
  replace (length l - Z.to_nat (- -1) - Nat.min (Z.to_nat 1) (length l))%nat
    with 0%nat by lia.
  reflexivity.
Qed.

(** What [lines[1:-1]] keeps of a list of lines that is not empty: the
    first line goes, and the last one too when it is another line. *)
Lemma slice_lines (lines : list string) :
  lines <> [] ->
  exists first kept trailing,
    lines = first :: kept ++ trailing /\
    (length trailing <= 1)%nat /\
    (kept = [] \/ length trailing = 1%nat) /\
    slice lines 1 (-1) = kept.
Proof.
  intros Hne. destruct lines as [|first rest]; [congruence|].
  destruct (decide (rest = [])) as [->|Hrest].
  - exists first, [], []. repeat split; auto.
  - destruct (exists_last Hrest) as (kept & z & ->).
    exists first, kept, [z]. repeat split; auto using slice_inner.
Qed.

End lines.

(** ** The completion client *)

Section completion_client.
Context `{Runtime}.
Import pystr claude_client.

Lemma strip_code_block_fenced (s : string) :
  startswith s fence = true ->
  strip_code_block s = join_lines (slice (split_lines s) 1 (-1)).
Proof. intros Hs. unfold strip_code_block. rewrite Hs. reflexivity. Qed.

Lemma strip_code_block_plain (s : string) :
  startswith s fence = false -> strip_code_block s = s.
Proof. intros Hs. unfold strip_code_block. rewrite Hs. reflexivity. Qed.

(** The client hands [text_to_parse text] to the parser, whatever else
    the answer carries. *)
Lemma call_claude_structured_response
    (prompt : string) (output_schema : Schema) (system_prompt : option string)
    (model : string) (max_tokens : Z) (temperature : Q) (e e' : Ext)
    (text : string) (input_tokens output_tokens : Z) :
  messages_create
    {| req_model := model; req_max_tokens := max_tokens;
       req_temperature := temperature;
       req_system := default EmptyString system_prompt +:+ json_instruction output_schema;
       req_messages := [("user", prompt)] |} e
    = (Response text input_tokens output_tokens, e') ->
  call_claude_structured prompt output_schema system_prompt model max_tokens temperature e
    = (parse_outcome output_schema (text_to_parse text)
         (input_tokens + output_tokens) (json_loads (text_to_parse text)), e').
Proof. intros Hreply. unfold call_claude_structured. rewrite Hreply. reflexivity. Qed.

(** C8: the text given to the parser is the stripped answer itself unless
    that starts with the fence marker; in that case the first line is
    dropped, the last line is dropped when there is a second line, and
    the lines in between are parsed.  No other line is touched. *)
Theorem fence_lines_stripped
    (prompt : string) (output_schema : Schema) (system_prompt : option string)
    (model : string) (max_tokens : Z) (temperature : Q) (e e' : Ext)
    (text : string) (input_tokens output_tokens : Z) :
  messages_create
    {| req_model := model; req_max_tokens := max_tokens;
       req_temperature := temperature;
       req_system := default EmptyString system_prompt +:+ json_instruction output_schema;
       req_messages := [("user", prompt)] |} e
    = (Response text input_tokens output_tokens, e') ->
  let s := strip text in
  let lines := split_lines s in
  call_claude_structured prompt output_schema system_prompt model max_tokens temperature e
    = (parse_outcome output_schema (text_to_parse text)
         (input_tokens + output_tokens) (json_loads (text_to_parse text)), e')
  /\ join_lines lines = s
  /\ if startswith s fence
     then exists first kept trailing,
            lines = first :: kept ++ trailing /\
            (length trailing <= 1)%nat /\
            (kept = [] \/ length trailing = 1%nat) /\
            text_to_parse text = join_lines kept
     else text_to_parse text = s.
Proof.
  intros Hreply s lines.
  split; [by apply call_claude_structured_response|].
  split; [apply join_split_lines|].
  unfold text_to_parse. fold s.
  destruct (startswith s fence) eqn:Hfence.
  - rewrite strip_code_block_fenced by done. fold lines.
    destruct (slice_lines lines (split_lines_not_nil s))
      as (first & kept & trailing & Hlines & Hlen & Hlast & Hslice).
    exists first, kept, trailing. rewrite Hslice. auto.
  - by apply strip_code_block_plain.
Qed.

(** A successful outcome of the client carries the dump of a value that
    the output schema accepted. *)
Lemma call_claude_structured_success
    (prompt : string) (output_schema : Schema) (system_prompt : option string)
    (model : string) (max_tokens : Z) (temperature : Q) (e : Ext) :
  let r := (call_claude_structured prompt output_schema system_prompt
              model max_tokens temperature e).1 in
  SkillResult.success r = true ->
  exists parsed validated,
    model_validate output_schema parsed = inl validated /\
    SkillResult.output r = PyDict (model_dump validated).
Proof.
  unfold call_claude_structured.
  destruct (messages_create _ e) as [[text it ot|msg|msg] e']; cbn;
    try discriminate.
  unfold parse_outcome.
  destruct (json_loads _) as [parsed|err]; cbn; try discriminate.
  destruct (model_validate output_schema parsed) as [validated|err] eqn:Hv;
    cbn; try discriminate.
  intros _. by exists parsed, validated.
Qed.

End completion_client.

Lemma fence_lines_stripped_witness :
  let text := example.fenced_answer in
  let s := pystr.strip text in
  let lines := pystr.split_lines s in
  @claude_client.call_claude_structured example.runtime
    "Summarize" (example.requires "title") None "m" 4096 0%Q
    (0%nat, [Response text 10 5])
    = (claude_client.parse_outcome (example.requires "title")
         (claude_client.text_to_parse text) (10 + 5)
         (@json_loads example.runtime (claude_client.text_to_parse text)),
       (1%nat, []))
  /\ pystr.join_lines lines = s
  /\ if pystr.startswith s pystr.fence
     then exists first kept trailing,
            lines = first :: kept ++ trailing /\
            (length trailing <= 1)%nat /\
            (kept = [] \/ length trailing = 1%nat) /\
            claude_client.text_to_parse text = pystr.join_lines kept
     else claude_client.text_to_parse text = s.
Proof.
  exact (@fence_lines_stripped example.runtime
           "Summarize" (example.requires "title") None "m" 4096 0%Q
           (0%nat, [Response example.fenced_answer 10 5]) (1%nat, [])
           example.fenced_answer 10 5 eq_refl).
Defined.

Example fenced_answer_parsed :
  claude_client.text_to_parse example.fenced_answer = "{}".
Proof. reflexivity. Qed.

(** ** The pipeline of [run] *)

Section pipeline.
Context `{Runtime}.

(** [run] once the input has passed validation, in terms of what
    [execute] gave. *)
Lemma run_valid_input (self : BaseSkill) (raw_input : pyval)
    (validated : Model) (r : SkillResult.t) (e : Ext) (w : World) :
  validate_input self raw_input = inl validated ->
  execute self validated (ext w) = (r, e) ->
  let w' := {| ext := e; trace := trace w ++ [EvExecute (name self) validated] |} in
  let r' := SkillResult.set_latency_ms r (measured w e) in
  run self raw_input w =
    if SkillResult.success r && truthy (SkillResult.output r) then
      match validate_output self (SkillResult.output r) with
      | inr detail =>
          (SkillResult.make false (SkillResult.output r) (Some VALIDATION_OUTPUT)
             (Some detail) (SkillResult.tokens_used r) (measured w e), w')
      | inl _ => (r', w')
      end
    else (r', w').
Proof.
  intros Hin Hex. unfold run, call_execute. rewrite Hin, Hex. reflexivity.
Qed.

(** C5: when the raw input fails validation, [run] returns the failure
    outcome with classification VALIDATION_INPUT, the validation detail as
    message and the default latency 0; the world is left as it was, with
    no call of [execute] in the trace, and the outcome does not depend on
    the skill's [execute]. *)
Theorem run_rejects_invalid_input (self : BaseSkill) (raw_input : pyval)
    (detail : string) (w : World) :
  validate_input self raw_input = inr detail ->
  run self raw_input w =
    (SkillResult.make false PyNone (Some VALIDATION_INPUT) (Some detail) 0 0, w)
  /\ forall other : BaseSkill,
       input_schema other = input_schema self ->
       run other raw_input w = run self raw_input w.
Proof.
  intros Hin. split.
  - unfold run. rewrite Hin. reflexivity.
  - intros other Hschema. unfold run, validate_input in *.
    rewrite Hschema, Hin. reflexivity.
Qed.

(** When [execute] reports success with an output that counts as true and
    the output schema rejects it, [run] turns the outcome into a failure
    that keeps the raw output, the tokens and the measured latency. *)
Lemma run_downgrades_invalid_output (self : BaseSkill) (raw_input : pyval)
    (validated : Model) (r : SkillResult.t) (e : Ext) (detail : string) (w : World) :
  validate_input self raw_input = inl validated ->
  execute self validated (ext w) = (r, e) ->
  SkillResult.success r = true ->
  truthy (SkillResult.output r) = true ->
  validate_output self (SkillResult.output r) = inr detail ->
  (run self raw_input w).1 =
    SkillResult.make false (SkillResult.output r) (Some VALIDATION_OUTPUT)
      (Some detail) (SkillResult.tokens_used r) (measured w e).
Proof.
  intros Hin Hex Hs Ht Hout.
  rewrite (run_valid_input _ _ _ _ _ _ Hin Hex), Hs, Ht, Hout. reflexivity.
Qed.

(** C6, where the code departs from it: when [execute] reports success
    with an empty dict, [run] does not consult the output schema; the
    outcome stays a success even though the schema rejects the output. *)
Theorem run_keeps_empty_output_unvalidated (self : BaseSkill) (raw_input : pyval)
    (validated : Model) (r : SkillResult.t) (e : Ext) (detail : string) (w : World) :
  validate_input self raw_input = inl validated ->
  execute self validated (ext w) = (r, e) ->
  SkillResult.success r = true ->
  SkillResult.output r = PyDict [] ->
  validate_output self (SkillResult.output r) = inr detail ->
  (run self raw_input w).1 = SkillResult.set_latency_ms r (measured w e)
  /\ SkillResult.success (run self raw_input w).1 = true
  /\ SkillResult.error_type (run self raw_input w).1 = SkillResult.error_type r.
Proof.
  intros Hin Hex Hs Hempty Hout.
  rewrite (run_valid_input _ _ _ _ _ _ Hin Hex), Hs, Hempty. cbn. auto.
Qed.

(** The same for an outcome without output. *)
Lemma run_keeps_null_output (self : BaseSkill) (raw_input : pyval)
    (validated : Model) (r : SkillResult.t) (e : Ext) (w : World) :
  validate_input self raw_input = inl validated ->
  execute self validated (ext w) = (r, e) ->
  SkillResult.output r = PyNone ->
  (run self raw_input w).1 = SkillResult.set_latency_ms r (measured w e).
Proof.
  intros Hin Hex Hnull.
  rewrite (run_valid_input _ _ _ _ _ _ Hin Hex), Hnull, andb_false_r.
  reflexivity.
Qed.

(** A successful outcome of [run] whose output counts as true has passed
    the output schema. *)
Lemma run_success_validated (self : BaseSkill) (raw_input : pyval) (w : World) :
  let r := (run self raw_input w).1 in
  SkillResult.success r = true ->
  truthy (SkillResult.output r) = true ->
  exists validated, validate_output self (SkillResult.output r) = inl validated.
Proof.
  unfold run.
  destruct (validate_input self raw_input) as [validated|detail]; [|discriminate].
  destruct (call_execute self validated w) as [r w'].
  destruct r as [s o et em tk lat]. cbn.
  destruct s; cbn; [|discriminate].
  destruct (truthy o) eqn:Ho; cbn; [|congruence].
  destruct (validate_output self o) as [m|detail] eqn:Hv; cbn; [|discriminate].
  intros _ _. by exists m.
Qed.

(** C7, as the code has it: a successful outcome of [run] whose output
    counts as true (neither null nor empty) has passed the output schema; a
    successful outcome of the completion client carries a non-null output,
    the dump of a value the output schema accepted; and when [execute]
    reports success without output, [run] hands that outcome on as a
    success without output. *)
Theorem success_implies_validated_output :
  (forall (self : BaseSkill) (raw_input : pyval) (w : World),
      let r := (run self raw_input w).1 in
      SkillResult.success r = true ->
      truthy (SkillResult.output r) = true ->
      exists validated, validate_output self (SkillResult.output r) = inl validated)
  /\ (forall (prompt : string) (output_schema : Schema) (system_prompt : option string)
        (model : string) (max_tokens : Z) (temperature : Q) (e : Ext),
      let r := (claude_client.call_claude_structured prompt output_schema
                  system_prompt model max_tokens temperature e).1 in
      SkillResult.success r = true ->
      SkillResult.output r <> PyNone /\
      exists parsed validated,
        model_validate output_schema parsed = inl validated /\
        SkillResult.output r = PyDict (model_dump validated))
  /\ (forall (self : BaseSkill) (raw_input : pyval) (validated : Model)
        (r : SkillResult.t) (e : Ext) (w : World),
      validate_input self raw_input = inl validated ->
      execute self validated (ext w) = (r, e) ->
      SkillResult.success r = true ->
      SkillResult.output r = PyNone ->
      SkillResult.success (run self raw_input w).1 = true /\
      SkillResult.output (run self raw_input w).1 = PyNone).
Proof.
  split; [exact run_success_validated|]. split.
  - intros prompt output_schema system_prompt model max_tokens temperature e r Hs.
    destruct (call_claude_structured_success prompt output_schema system_prompt
                model max_tokens temperature e Hs) as (parsed & validated & Hv & Hout).
    split; [fold r in Hout; congruence|]. by exists parsed, validated.
  - intros self raw_input validated r e w Hin Hex Hs Hnull.
    rewrite (run_keeps_null_output _ _ _ _ _ _ Hin Hex Hnull). cbn. auto.
Qed.

End pipeline.

Lemma run_rejects_invalid_input_witness :
  @run example.runtime example.titled_skill example.bad_input example.w0 =
    (SkillResult.make false PyNone (Some VALIDATION_INPUT)
       (Some "url: Field required") 0 0, example.w0)
  /\ forall other : @BaseSkill example.runtime,
       input_schema other = input_schema example.titled_skill ->
       run other example.bad_input example.w0
       = run example.titled_skill example.bad_input example.w0.
Proof.
  apply (@run_rejects_invalid_input example.runtime). reflexivity.
Defined.

Lemma run_keeps_empty_output_unvalidated_witness :
  let result := (@run example.runtime example.empty_skill example.good_input example.w0).1 in
  @validate_output example.runtime example.empty_skill (PyDict [])
    = inr "title: Field required"
  /\ result = SkillResult.make true (PyDict []) None None 7 1000
  /\ SkillResult.success result = true
  /\ SkillResult.error_type result = None.
Proof.
  split; [reflexivity|].
  exact (@run_keeps_empty_output_unvalidated example.runtime
           example.empty_skill example.good_input example.good_input
           (SkillResult.make true (PyDict []) None None 7 0) (1%nat, [])
           "title: Field required" example.w0
           eq_refl eq_refl eq_refl eq_refl eq_refl).
Defined.

(** C7 as stated fails: with a skill whose [execute] reports success without
    output, [run] returns a success whose output is null. *)
Lemma run_success_with_null_output :
  let r := (@run example.runtime example.null_skill example.good_input example.w0).1 in
  ~ (SkillResult.success r = true ->
     SkillResult.output r <> PyNone /\
     exists validated,
       @validate_output example.runtime example.null_skill (SkillResult.output r)
       = inl validated).
Proof.
  cbn. intros Hclaim. destruct (Hclaim eq_refl) as [Hnonnull _]. by apply Hnonnull.
Qed.

Lemma success_implies_validated_output_witness :
  let r := (@run example.runtime example.titled_skill example.good_input example.w0).1 in
  SkillResult.success r = true /\
  truthy (SkillResult.output r) = true /\
  exists validated,
    @validate_output example.runtime example.titled_skill (SkillResult.output r)
    = inl validated.
Proof.
  split; [reflexivity|]. split; [reflexivity|].
  exact (proj1 (@success_implies_validated_output example.runtime)
           example.titled_skill example.good_input example.w0 eq_refl eq_refl).
Defined.

(** ** The item task and its retries *)

Section item_task.
Context `{Runtime} (SKILL_REGISTRY : gmap string BaseSkill).
Import celery connection tasks.

Lemma retry_within_limit (max_retries : Z) (self : Message) (exc : string)
    (countdown : Z) (b : list Message) :
  msg_retries self + 1 <= max_retries ->
  retry max_retries self exc countdown b = (Retried, b ++ [resent self countdown]).
Proof.
  intros Hle. unfold retry.
  destruct (Z.ltb_spec max_retries (msg_retries self + 1)); [lia|reflexivity].
Qed.

Lemma retry_exhausted (max_retries : Z) (self : Message) (exc : string)
    (countdown : Z) (b : list Message) :
  max_retries < msg_retries self + 1 ->
  retry max_retries self exc countdown b = (Raised exc, b).
Proof.
  intros Hlt. unfold retry.
  destruct (Z.ltb_spec max_retries (msg_retries self + 1)); [reflexivity|lia].
Qed.

(** The three ways out of [process_single_item], by the classification of
    the outcome of [run]. *)
Lemma process_single_item_cases (self : Message)
    (batch_id item_id skill_name : string) (input_data : pyval) (s : System)
    (skill : BaseSkill) (result : SkillResult.t) (w : World) :
  registry.get_skill SKILL_REGISTRY skill_name = Some skill ->
  run skill input_data (world s) = (result, w) ->
  process_single_item SKILL_REGISTRY self batch_id item_id skill_name input_data s =
    match classification result with
    | Some RATE_LIMIT =>
        let '(r, b) :=
          retry process_single_item_max_retries self "Rate limited"
            (30 * (msg_retries self + 1)) (broker s) in
        (r, {| world := w; db := db s; broker := b |})
    | Some API_ERROR =>
        let '(r, b) :=
          retry process_single_item_max_retries self
            (default "None" (SkillResult.error_message result)) 10 (broker s) in
        (r, {| world := w; db := db s; broker := b |})
    | _ =>
        (Returned (PyDict [("item_id", PyStr item_id);
                           ("success", PyBool (SkillResult.success result));
                           ("error_type",
                            from_option PyStr PyNone
                              (value <$> SkillResult.error_type result))]),
         {| world := w; db := stored batch_id item_id result w (db s);
            broker := broker s |})
    end.
Proof.
  intros Hskill Hrun. unfold process_single_item, classification, stored.
  rewrite Hskill, Hrun.
  destruct result as [success output error_type error_message tokens latency].
  destruct success; [reflexivity|].
  destruct error_type as [[]|]; reflexivity.
Qed.

(** C4: the retry policy of an item.  With [attempt] one more than the
    retries already made: a rate-limited outcome is sent again after
    [30 * attempt] seconds and an API error after 10 seconds, as long as
    [attempt] is at most 5; beyond that the task raises and nothing is sent
    again.  Any other outcome is stored at once and never sent again. *)
Theorem retry_policy (self : Message)
    (batch_id item_id skill_name : string) (input_data : pyval) (s : System)
    (skill : BaseSkill) (result : SkillResult.t) (w : World) :
  registry.get_skill SKILL_REGISTRY skill_name = Some skill ->
  run skill input_data (world s) = (result, w) ->
  let out :=
    process_single_item SKILL_REGISTRY self batch_id item_id skill_name input_data s in
  let attempt := msg_retries self + 1 in
  match classification result with
  | Some RATE_LIMIT =>
      if attempt <=? 5 then
        out = (Retried, {| world := w; db := db s;
                           broker := broker s ++ [resent self (30 * attempt)] |})
      else
        out = (Raised "Rate limited", {| world := w; db := db s; broker := broker s |})
  | Some API_ERROR =>
      if attempt <=? 5 then
        out = (Retried, {| world := w; db := db s;
                           broker := broker s ++ [resent self 10] |})
      else
        out = (Raised (default "None" (SkillResult.error_message result)),
               {| world := w; db := db s; broker := broker s |})
  | _ =>
      (exists v, out.1 = Returned v) /\
      broker out.2 = broker s /\
      db out.2 = stored batch_id item_id result w (db s)
  end.
Proof.
  intros Hskill Hrun out attempt. subst out.
  rewrite (process_single_item_cases _ _ _ _ _ _ _ _ _ Hskill Hrun).
  unfold process_single_item_max_retries.
  destruct (classification result) as [[]|]; cbn [fst snd broker db]; eauto;
    fold attempt; destruct (Z.leb_spec attempt 5);
    (rewrite retry_within_limit by (subst attempt; lia))
    || (rewrite retry_exhausted by (subst attempt; lia)); reflexivity.
Qed.

(** C3, where the code departs from it: once the retries of a
    rate-limited or API-error outcome are used up, the task raises and
    leaves the database as it was; the item row is not written and no
    counter moves. *)
Theorem exhausted_retries_store_nothing (self : Message)
    (batch_id item_id skill_name : string) (input_data : pyval) (s : System)
    (skill : BaseSkill) (result : SkillResult.t) (w : World) :
  registry.get_skill SKILL_REGISTRY skill_name = Some skill ->
  run skill input_data (world s) = (result, w) ->
  classification result = Some RATE_LIMIT \/ classification result = Some API_ERROR ->
  process_single_item_max_retries <= msg_retries self ->
  let out :=
    process_single_item SKILL_REGISTRY self batch_id item_id skill_name input_data s in
  (exists exc, out.1 = Raised exc) /\
  db out.2 = db s /\
  broker out.2 = broker s.
Proof.
  intros Hskill Hrun Hclass Hretries out. subst out.
  rewrite (process_single_item_cases _ _ _ _ _ _ _ _ _ Hskill Hrun).
  destruct Hclass as [-> | ->];
    rewrite retry_exhausted by lia; cbn; eauto.
Qed.

End item_task.

(** ** The job row under [update_batch_item] *)

Section job_row.
Import models connection.

Lemma update_batch_item_job (batch_id item_id : string) (success : bool)
    (output : pyval) (error_type error_message : option string)
    (tokens_used latency_ms : Z) (now : Q) (d : DB) :
  batch_jobs (update_batch_item batch_id item_id success output error_type
                error_message tokens_used latency_ms now d) !! batch_id
  = (fun j => checked (counted success j)) <$> batch_jobs d !! batch_id.
Proof.
  unfold update_batch_item. cbn [batch_jobs].
  assert (Hc : (if success then alter incr_completed batch_id (batch_jobs d)
                else alter incr_failed batch_id (batch_jobs d))
               = alter (counted success) batch_id (batch_jobs d))
    by (destruct success; reflexivity).
  rewrite Hc, lookup_alter_eq.
  destruct (batch_jobs d !! batch_id) as [j|] eqn:Hj; cbn.
  - unfold checked.
    destruct (_ <=? _).
    + rewrite lookup_alter_eq, lookup_alter_eq, Hj. reflexivity.
    + rewrite lookup_alter_eq, Hj. reflexivity.
  - rewrite lookup_alter_eq, Hj. reflexivity.
Qed.

Lemma update_batch_item_other_job (batch_id item_id : string) (success : bool)
    (output : pyval) (error_type error_message : option string)
    (tokens_used latency_ms : Z) (now : Q) (d : DB) (b : string) :
  b <> batch_id ->
  batch_jobs (update_batch_item batch_id item_id success output error_type
                error_message tokens_used latency_ms now d) !! b
  = batch_jobs d !! b.
Proof.
  intros Hne. unfold update_batch_item. cbn [batch_jobs].
  assert (Hc : (if success then alter incr_completed batch_id (batch_jobs d)
                else alter incr_failed batch_id (batch_jobs d))
               = alter (counted success) batch_id (batch_jobs d))
    by (destruct success; reflexivity).
  rewrite Hc.
  destruct (alter (counted success) batch_id (batch_jobs d) !! batch_id) as [j|].
  - destruct (_ <=? _); rewrite ?lookup_alter_ne by congruence; reflexivity.
  - rewrite lookup_alter_ne by congruence. reflexivity.
Qed.

(** Exactly one of the two counters moves, by exactly one; the total
    never changes. *)
Lemma checked_counted_counters (success : bool) (j : BatchJob.t) :
  let j' := checked (counted success j) in
  BatchJob.total_items j' = BatchJob.total_items j /\
  (if success
   then BatchJob.completed_items j' = BatchJob.completed_items j + 1 /\
        BatchJob.failed_items j' = BatchJob.failed_items j
   else BatchJob.completed_items j' = BatchJob.completed_items j /\
        BatchJob.failed_items j' = BatchJob.failed_items j + 1).
Proof.
  unfold checked, counted.
  destruct success; cbn; destruct (_ <=? _); cbn; auto.
Qed.

(** The status after an item update: completed when the counters have
    reached the total, as before otherwise. *)
Lemma checked_counted_status (success : bool) (j : BatchJob.t) :
  let j' := checked (counted success j) in
  BatchJob.status j' =
    if BatchJob.total_items j <=? BatchJob.completed_items j + BatchJob.failed_items j + 1
    then value COMPLETED else BatchJob.status j.
Proof.
  unfold checked, counted.
  destruct success; cbn;
    repeat match goal with |- context [?a <=? ?b] =>
      destruct (Z.leb_spec a b) end; cbn; try reflexivity; lia.
Qed.

(** A completed row stays completed under a further item update. *)
Lemma checked_counted_completed (success : bool) (j : BatchJob.t) :
  BatchJob.status j = value COMPLETED ->
  BatchJob.status (checked (counted success j)) = value COMPLETED.
Proof.
  intros Hj. rewrite checked_counted_status. by destruct (_ <=? _).
Qed.

End job_row.

(** ** What is in flight *)

Section counting.
Import system.
Context {A : Type} (P : A -> bool).

Lemma count_nonneg (l : list A) : 0 <= count P l.
Proof. induction l as [|x l IH]; cbn; [lia|]. destruct (P x); lia. Qed.

Lemma count_app (l1 l2 : list A) : count P (l1 ++ l2) = count P l1 + count P l2.
Proof. induction l1 as [|x l1 IH]; cbn; [lia|]. rewrite IH. lia. Qed.

Lemma count_snoc (l : list A) (x : A) :
  count P (l ++ [x]) = count P l + (if P x then 1 else 0).
Proof. rewrite count_app. cbn. lia. Qed.

(** Taking one element out of the middle. *)
Lemma count_middle (l1 l2 : list A) (x : A) :
  count P (l1 ++ x :: l2) = count P (l1 ++ l2) + (if P x then 1 else 0).
Proof. rewrite !count_app. cbn. lia. Qed.

Lemma count_none (l : list A) :
  Forall (fun x => P x = false) l -> count P l = 0.
Proof. induction 1 as [|x l Hx _ IH]; cbn; [lia|]. rewrite Hx, IH. lia. Qed.

Lemma count_all (l : list A) :
  Forall (fun x => P x = true) l -> count P l = Z.of_nat (length l).
Proof. induction 1 as [|x l Hx _ IH]; cbn; [lia|]. rewrite Hx, IH. lia. Qed.

End counting.

Section sending.
Import system celery.

Lemma group_apply_async_app (tasks : list Signature) (b : list Message) :
  group_apply_async tasks b = b ++ map (fresh_message None) tasks.
Proof.
  unfold group_apply_async. revert b.
  induction tasks as [|sig tasks IH]; intros b; cbn.
  - by rewrite app_nil_r.
  - rewrite IH. unfold apply_async. by rewrite <- app_assoc.
Qed.

Lemma count_items_of_batch (b batch_id skill_name : string) (tasks : list Signature) :
  Forall (fun sig => exists item_id input_data,
              sig = process_single_item_s batch_id item_id skill_name input_data) tasks ->
  count (is_item_of b) (map (fresh_message None) tasks)
  = if bool_decide (batch_id = b) then Z.of_nat (length tasks) else 0.
Proof.
  intros Htasks. case_bool_decide as Hb.
  - rewrite count_all, length_map; [done|].
    apply Forall_map. eapply Forall_impl; [exact Htasks|].
    intros sig (item_id & input_data & ->). cbn. by apply bool_decide_eq_true.
  - apply count_none, Forall_map. eapply Forall_impl; [exact Htasks|].
    intros sig (item_id & input_data & ->). cbn. by apply bool_decide_eq_false.
Qed.

Lemma count_checks_of_items (b batch_id skill_name : string) (tasks : list Signature) :
  Forall (fun sig => exists item_id input_data,
              sig = process_single_item_s batch_id item_id skill_name input_data) tasks ->
  count (is_check_of b) (map (fresh_message None) tasks) = 0.
Proof.
  intros Htasks. apply count_none, Forall_map. eapply Forall_impl; [exact Htasks|].
  by intros sig (item_id & input_data & ->).
Qed.

End sending.

Section queueing.
Context `{Runtime}.
Import celery connection tasks.

(** The loop over the inputs writes item rows only, and queues one item
    task of the batch per input. *)
Lemma queue_items_jobs (batch_id skill_name : string) (inputs : list pyval) :
  forall (i : nat) (queued : list Signature) (d d' : DB)
         (r : list Signature + string),
    queue_items batch_id skill_name i inputs queued d = (r, d') ->
    batch_jobs d' = batch_jobs d.
Proof.
  induction inputs as [|input_data rest IH]; intros i queued d d' r; cbn.
  - by intros [= _ <-].
  - unfold create_batch_item.
    destruct (batch_items d !! _); [by intros [= _ <-]|].
    intros Hq. by rewrite (IH _ _ _ _ _ Hq).
Qed.

Lemma queue_items_tasks (batch_id skill_name : string) (inputs : list pyval) :
  forall (i : nat) (queued queued' : list Signature) (d d' : DB),
    queue_items batch_id skill_name i inputs queued d = (inl queued', d') ->
    exists extra,
      queued' = queued ++ extra /\
      length extra = length inputs /\
      Forall (fun sig => exists item_id input_data,
                  sig = process_single_item_s batch_id item_id skill_name input_data)
        extra.
Proof.
  induction inputs as [|input_data rest IH]; intros i queued queued' d d'; cbn.
  - intros [= <- _]. exists []. by rewrite app_nil_r.
  - destruct (create_batch_item _ _ _ d) as [d1|e]; [|discriminate].
    intros Hq. destruct (IH _ _ _ _ _ Hq) as (extra & -> & Hlen & Hall).
    eexists (_ :: extra). rewrite <- app_assoc. split; [reflexivity|].
    split; [cbn; by rewrite Hlen|].
    constructor; eauto.
Qed.

End queueing.

(** ** The bookkeeping is kept by every step *)

Section bookkeeping.
Context `{Runtime} (SKILL_REGISTRY : gmap string BaseSkill).
Import models celery connection tasks system.

(** A step that leaves the row of [b] alone, takes nothing from the
    trace and adds no message of [b] keeps the bookkeeping of [b]. *)
Lemma batch_ok_weaken (s s' : System) (b : string) :
  batch_jobs (db s') !! b = batch_jobs (db s) !! b ->
  pending_items b s' <= pending_items b s ->
  pending_checks b s' <= pending_checks b s ->
  deliveries b s' = deliveries b s ->
  batch_ok s b -> batch_ok s' b.
Proof.
  unfold batch_ok. intros -> Hi Hc Hd.
  pose proof (count_nonneg (is_item_of b) (broker s')) as Hi0.
  pose proof (count_nonneg (is_check_of b) (broker s')) as Hc0.
  counts. rewrite Hd.
  destruct (batch_jobs (db s) !! b) as [j|].
  - intros (Hcj & Hfj & Hroom & Hstatus & Honce).
    repeat split; try assumption; lia.
  - intros (Hi1 & Hc1 & Hd1). repeat split; lia.
Qed.

(** [run] makes no delivery. *)
Lemma run_deliveries (skill : BaseSkill) (input_data : pyval) (w : World) (b : string) :
  count (is_delivery_of b) (trace (run skill input_data w).2)
  = count (is_delivery_of b) (trace w).
Proof.
  unfold run.
  destruct (validate_input skill input_data) as [validated|detail]; [|reflexivity].
  unfold call_execute. destruct (execute skill validated (ext w)) as [r e].
  assert (Hw : count (is_delivery_of b) (trace w ++ [EvExecute (name skill) validated])
               = count (is_delivery_of b) (trace w))
    by (rewrite count_snoc; cbn; lia).
  destruct (_ && _); [destruct (validate_output _ _)|]; exact Hw.
Qed.

(** Where an item task can leave the system. *)
Lemma process_single_item_outcome (self : Message)
    (batch_id item_id skill_name : string) (input_data : pyval) (s : System) :
  let s' := (process_single_item SKILL_REGISTRY self batch_id item_id
               skill_name input_data s).2 in
  s' = s \/
  exists skill result w,
    run skill input_data (world s) = (result, w) /\
    (s' = {| world := w; db := db s; broker := broker s |} \/
     (exists countdown,
         s' = {| world := w; db := db s;
                 broker := broker s ++ [resent self countdown] |}) \/
     s' = {| world := w; db := stored batch_id item_id result w (db s);
             broker := broker s |}).
Proof.
  destruct (registry.get_skill SKILL_REGISTRY skill_name) as [skill|] eqn:Hskill.
  - destruct (run skill input_data (world s)) as [result w] eqn:Hrun.
    right. exists skill, result, w. split; [exact Hrun|].
    rewrite (process_single_item_cases _ _ _ _ _ _ _ _ _ _ Hskill Hrun).
    unfold retry, resent.
    destruct (classification result) as [[]|]; cbn; eauto;
      destruct (_ <? _); cbn; eauto.
  - left. unfold process_single_item. rewrite Hskill. destruct s; reflexivity.
Qed.

Lemma item_task_keeps_invariant (m : Message) (before after : list Message)
    (batch_id item_id skill_name : string) (input_data : pyval) (s : System) :
  msg_sig m = process_single_item_s batch_id item_id skill_name input_data ->
  broker s = before ++ m :: after ->
  invariant s ->
  invariant (process_single_item SKILL_REGISTRY m batch_id item_id skill_name input_data
               {| world := world s; db := db s; broker := before ++ after |}).2.
Proof.
  intros Hsig Hbroker Hinv b. specialize (Hinv b).
  assert (Hm_i : is_item_of b m = bool_decide (batch_id = b))
    by (unfold is_item_of; by rewrite Hsig).
  assert (Hm_c : is_check_of b m = false)
    by (unfold is_check_of; by rewrite Hsig).
  assert (Hitems : pending_items b s
                   = count (is_item_of b) (before ++ after)
                     + (if bool_decide (batch_id = b) then 1 else 0)).
  { unfold pending_items. by rewrite Hbroker, count_middle, Hm_i. }
  assert (Hchecks : pending_checks b s = count (is_check_of b) (before ++ after)).
  { unfold pending_checks. rewrite Hbroker, count_middle, Hm_c. lia. }
  assert (Hresent_i : forall countdown,
             is_item_of b (resent m countdown) = bool_decide (batch_id = b))
    by (intros; unfold is_item_of; cbn; by rewrite Hsig).
  assert (Hresent_c : forall countdown, is_check_of b (resent m countdown) = false)
    by (intros; unfold is_check_of; cbn; by rewrite Hsig).
  destruct (process_single_item_outcome m batch_id item_id skill_name input_data
              {| world := world s; db := db s; broker := before ++ after |})
    as [-> | (skill & result & w & Hrun & Hout)].
  { apply (batch_ok_weaken s); counts; try done; case_bool_decide; lia. }
  cbn [world db broker] in Hrun, Hout.
  assert (Hw : count (is_delivery_of b) (trace w) = deliveries b s).
  { pose proof (run_deliveries skill input_data (world s) b) as Hd.
    by rewrite Hrun in Hd. }
  destruct Hout as [-> | [(countdown & ->) | ->]].
  - apply (batch_ok_weaken s); counts; try done; case_bool_decide; lia.
  - apply (batch_ok_weaken s); counts; try done;
      rewrite count_snoc, ?Hresent_i, ?Hresent_c; lia.
  - destruct (decide (b = batch_id)) as [->|Hne].
    + revert Hinv. unfold batch_ok. counts. unfold stored.
      rewrite update_batch_item_job, Hw.
      rewrite bool_decide_eq_true_2 in Hitems by done.
      pose proof (count_nonneg (is_item_of batch_id) (before ++ after)) as Hpos.
      destruct (batch_jobs (db s) !! batch_id) as [j|]; cbn; [|lia].
      intros (Hcj & Hfj & Hroom & Hstatus & Honce).
      pose proof (checked_counted_counters (SkillResult.success result) j) as Hcnt.
      pose proof (checked_counted_status (SkillResult.success result) j) as Hst.
      cbn zeta in Hcnt, Hst. destruct Hcnt as [Htot Hcnt].
      rewrite Hst, Htot.
      assert (Hsum : BatchJob.completed_items (checked (counted (SkillResult.success result) j))
                     + BatchJob.failed_items (checked (counted (SkillResult.success result) j))
                     = BatchJob.completed_items j + BatchJob.failed_items j + 1)
        by (destruct (SkillResult.success result); lia).
      split; [destruct (SkillResult.success result); lia|].
      split; [destruct (SkillResult.success result); lia|].
      split; [lia|]. split; [|lia].
      destruct (Z.leb_spec (BatchJob.total_items j)
                  (BatchJob.completed_items j + BatchJob.failed_items j + 1)).
      * right. repeat split; lia.
      * left. destruct Hstatus as [[Hp _] | (_ & Hfull & _)]; [|lia].
        split; [done|]. left. lia.
    + apply (batch_ok_weaken s); counts; try done.
      * unfold stored. by apply update_batch_item_other_job.
      * rewrite bool_decide_eq_false_2 in Hitems by congruence. lia.
      * lia.
Qed.

(** The messages a batch task sends: the item tasks of its batch, and at
    most one completion check. *)
Lemma batch_messages (batch_id skill_name : string) (queued : list Signature)
    (webhook_url : option string) (br : list Message) (b : string) :
  Forall (fun sig => exists item_id input_data,
              sig = process_single_item_s batch_id item_id skill_name input_data)
    queued ->
  let br' :=
    match webhook_url with
    | Some url =>
        if truthy (PyStr url)
        then apply_async (notify_completion_s batch_id url) (Some 10)
               (group_apply_async queued br)
        else group_apply_async queued br
    | None => group_apply_async queued br
    end in
  count (is_item_of b) br'
    = count (is_item_of b) br
      + (if bool_decide (batch_id = b) then Z.of_nat (length queued) else 0)
  /\ count (is_check_of b) br'
      <= count (is_check_of b) br + (if bool_decide (batch_id = b) then 1 else 0).
Proof.
  intros Hall br'.
  assert (Hi : count (is_item_of b) (group_apply_async queued br)
               = count (is_item_of b) br
                 + (if bool_decide (batch_id = b) then Z.of_nat (length queued) else 0))
    by (rewrite group_apply_async_app, count_app;
        by rewrite (count_items_of_batch _ _ _ _ Hall)).
  assert (Hc : count (is_check_of b) (group_apply_async queued br)
               = count (is_check_of b) br)
    by (rewrite group_apply_async_app, count_app,
          (count_checks_of_items _ _ _ _ Hall); lia).
  assert (Hpos : 0 <= (if bool_decide (batch_id = b) then 1 else 0))
    by (case_bool_decide; lia).
  subst br'. destruct webhook_url as [url|]; [destruct (truthy (PyStr url))|];
    rewrite ?Hi, ?Hc; try (split; [reflexivity|lia]).
  unfold apply_async. rewrite !count_snoc, Hi, Hc. cbn.
  split; lia.
Qed.

Lemma batch_task_keeps_invariant (m : Message) (before after : list Message)
    (batch_id skill_name : string) (inputs : list pyval)
    (webhook_url : option string) (s : System) :
  msg_sig m = process_skill_batch_s batch_id skill_name inputs webhook_url ->
  broker s = before ++ m :: after ->
  invariant s ->
  invariant (process_skill_batch SKILL_REGISTRY m batch_id skill_name inputs webhook_url
               {| world := world s; db := db s; broker := before ++ after |}).2.
Proof.
  intros Hsig Hbroker Hinv.
  assert (Hm_i : forall b, is_item_of b m = false)
    by (intros; unfold is_item_of; by rewrite Hsig).
  assert (Hm_c : forall b, is_check_of b m = false)
    by (intros; unfold is_check_of; by rewrite Hsig).
  set (s0 := {| world := world s; db := db s; broker := before ++ after |}).
  assert (Hinv0 : invariant s0).
  { intros b. apply (batch_ok_weaken s); subst s0; counts; try done;
      rewrite Hbroker, count_middle, ?Hm_i, ?Hm_c; lia. }
  clearbody s0. clear Hinv Hbroker s.
  unfold process_skill_batch.
  destruct (registry.get_skill _ _) as [skill|]; [|exact Hinv0].
  unfold create_batch_job.
  destruct (batch_jobs (db s0) !! batch_id) eqn:Hfresh; [exact Hinv0|].
  destruct (queue_items _ _ _ _ _ _) as [[queued|e] d'] eqn:Hq;
    pose proof (queue_items_jobs _ _ _ _ _ _ _ _ Hq) as Hjobs;
    cbn [batch_jobs] in Hjobs; cbn [snd]; intros b; specialize (Hinv0 b);
    revert Hinv0; unfold batch_ok; counts; rewrite Hjobs.
  - destruct (queue_items_tasks _ _ _ _ _ _ _ _ Hq) as (extra & -> & Hlen & Hall).
    cbn [app].
    destruct (batch_messages batch_id skill_name extra webhook_url (broker s0) b Hall)
      as [Hi Hc].
    cbn zeta in Hi, Hc. rewrite Hi.
    pose proof (count_nonneg (is_check_of b) (broker s0)) as Hpos.
    destruct (decide (batch_id = b)) as [->|Hne].
    + rewrite lookup_insert_eq, Hfresh.
      rewrite bool_decide_eq_true_2 in Hi, Hc |- * by done.
      intros (Hi0 & Hc0 & Hd0).
      cbn [BatchJob.completed_items BatchJob.failed_items
           BatchJob.total_items BatchJob.status].
      rewrite Hi0, Hd0, Hlen.
      repeat split; try lia.
      left. split; [done|]. lia.
    + rewrite lookup_insert_ne by done.
      rewrite bool_decide_eq_false_2 in Hi, Hc |- * by done.
      destruct (batch_jobs (db s0) !! b) as [j|].
      * intros (Hcj & Hfj & Hroom & Hstatus & Honce).
        repeat split; try assumption; lia.
      * intros (Hi0 & Hc0 & Hd0).
        pose proof (count_nonneg (is_check_of b)
                      match webhook_url with
                      | Some url =>
                          if truthy (PyStr url)
                          then apply_async (notify_completion_s batch_id url)
                                 (Some 10) (group_apply_async extra (broker s0))
                          else group_apply_async extra (broker s0)
                      | None => group_apply_async extra (broker s0)
                      end).
        repeat split; lia.
  - destruct (decide (batch_id = b)) as [->|Hne].
    + rewrite lookup_insert_eq, Hfresh.
      intros (Hi0 & Hc0 & Hd0).
      cbn [BatchJob.completed_items BatchJob.failed_items
           BatchJob.total_items BatchJob.status].
      rewrite Hi0, Hc0, Hd0.
      repeat split; try lia.
      left. split; [done|]. lia.
    + by rewrite lookup_insert_ne by done.
Qed.

(** The [try] block makes one POST, and prints when that raises. *)
Lemma send_webhook_trace (webhook_url : string) (payload : pyval) (w : World) :
  exists exc e,
    httpx_post webhook_url payload (ext w) = (exc, e) /\
    send_webhook webhook_url payload w =
      {| ext := e;
         trace := trace w ++ EvPost webhook_url payload ::
                    match exc with
                    | None => []
                    | Some msg => [EvPrint ("Webhook notification failed: " +:+ msg)]
                    end |}.
Proof.
  unfold send_webhook.
  destruct (httpx_post webhook_url payload (ext w)) as [[msg|] e];
    eexists _, _; (split; [reflexivity|]); [|reflexivity].
  by rewrite <- app_assoc.
Qed.

Lemma send_webhook_deliveries (batch_id webhook_url : string)
    (status : StatusDict.t) (w : World) (b : string) :
  count (is_delivery_of b)
    (trace (send_webhook webhook_url (webhook_payload batch_id status) w))
  = count (is_delivery_of b) (trace w)
    + (if bool_decide (batch_id = b) then 1 else 0).
Proof.
  destruct (send_webhook_trace webhook_url (webhook_payload batch_id status) w)
    as (exc & e & _ & ->).
  cbn [trace]. rewrite count_app.
  destruct exc; cbn; case_bool_decide; lia.
Qed.

Lemma check_task_keeps_invariant (m : Message) (before after : list Message)
    (batch_id webhook_url : string) (s : System) :
  msg_sig m = notify_completion_s batch_id webhook_url ->
  broker s = before ++ m :: after ->
  invariant s ->
  invariant (notify_completion batch_id webhook_url
               {| world := world s; db := db s; broker := before ++ after |}).2.
Proof.
  intros Hsig Hbroker Hinv b. specialize (Hinv b).
  assert (Hm_i : is_item_of b m = false)
    by (unfold is_item_of; by rewrite Hsig).
  assert (Hm_c : is_check_of b m = bool_decide (batch_id = b))
    by (unfold is_check_of; by rewrite Hsig).
  assert (Hitems : pending_items b s = count (is_item_of b) (before ++ after)).
  { unfold pending_items. rewrite Hbroker, count_middle, Hm_i. lia. }
  assert (Hchecks : pending_checks b s
                    = count (is_check_of b) (before ++ after)
                      + (if bool_decide (batch_id = b) then 1 else 0)).
  { unfold pending_checks. by rewrite Hbroker, count_middle, Hm_c. }
  assert (Hrecheck :
            batch_ok {| world := world s; db := db s;
                        broker := apply_async (notify_completion_s batch_id webhook_url)
                                    (Some 30) (before ++ after) |} b).
  { apply (batch_ok_weaken s); counts; try done; unfold apply_async;
      rewrite count_snoc; cbn; lia. }
  unfold notify_completion, get_batch_status. cbn [db broker world].
  destruct (batch_jobs (db s) !! batch_id) as [j|] eqn:Hj; [|exact Hrecheck].
  cbn [StatusDict.status].
  destruct (String.eqb (BatchJob.status j) "completed"); [|exact Hrecheck].
  cbn [snd]. revert Hinv. unfold batch_ok. counts.
  rewrite send_webhook_deliveries.
  destruct (batch_jobs (db s) !! b) as [j'|] eqn:Hj'.
  - intros (Hcj & Hfj & Hroom & Hstatus & Honce).
    repeat split; try assumption; lia.
  - intros (Hi0 & Hc0 & Hd0).
    pose proof (count_nonneg (is_check_of b) (before ++ after)).
    case_bool_decide; [congruence|]. repeat split; lia.
Qed.

Lemma queue_batch_keeps_invariant (skill_name : string) (inputs : list pyval)
    (webhook_url : option string) (s : System) :
  invariant s -> invariant (main.queue_batch skill_name inputs webhook_url s).2.
Proof.
  intros Hinv b. unfold main.queue_batch.
  destruct (uuid4 (ext (world s))) as [batch_id e]. cbn [snd].
  apply (batch_ok_weaken s); counts; try done; unfold apply_async;
    rewrite count_snoc; cbn; lia.
Qed.

Lemma step_keeps_invariant (s s' : System) :
  invariant s -> step SKILL_REGISTRY s s' -> invariant s'.
Proof.
  intros Hinv Hstep. destruct Hstep as [submission s|skill_name rows s|m before after s Hbroker|e s].
  - unfold main.submit_batch.
    destruct (negb _); [exact Hinv|].
    pose proof (queue_batch_keeps_invariant
                  (main.BatchSubmission.skill_name submission)
                  (main.BatchSubmission.inputs submission)
                  (main.BatchSubmission.webhook_url submission) s Hinv) as Hq.
    by destruct (main.queue_batch _ _ _ s).
  - unfold main.submit_csv_batch.
    destruct (negb _); [exact Hinv|]. destruct (negb _); [exact Hinv|].
    pose proof (queue_batch_keeps_invariant skill_name rows None s Hinv) as Hq.
    by destruct (main.queue_batch _ _ _ s).
  - unfold run_task.
    destruct (msg_sig m) as [batch_id skill_name inputs webhook_url
                            |batch_id item_id skill_name input_data
                            |batch_id webhook_url] eqn:Hsig.
    + by eapply batch_task_keeps_invariant.
    + by eapply item_task_keeps_invariant.
    + by eapply check_task_keeps_invariant.
  - intros b. by apply (batch_ok_weaken s).
Qed.

Lemma initial_invariant (e : Ext) : invariant (initial e).
Proof. intros b. unfold batch_ok. cbn. rewrite lookup_empty. auto. Qed.

Lemma reachable_invariant (s : System) :
  reachable SKILL_REGISTRY s -> invariant s.
Proof.
  induction 1 as [e|s s' _ IH Hstep];
    eauto using initial_invariant, step_keeps_invariant.
Qed.

Lemma reachable_steps (s s' : System) :
  reachable SKILL_REGISTRY s -> steps SKILL_REGISTRY s s' ->
  reachable SKILL_REGISTRY s'.
Proof.
  intros Hs Hsteps. induction Hsteps as [s|s s1 s' Hstep _ IH]; [done|].
  apply IH. by eapply reachable_step.
Qed.

(** *** How a job row can change *)

Lemma queue_batch_db (skill_name : string) (inputs : list pyval)
    (webhook_url : option string) (s : System) :
  db (main.queue_batch skill_name inputs webhook_url s).2 = db s.
Proof. unfold main.queue_batch. by destruct (uuid4 _). Qed.

(** In one step the row of a batch stays as it is, or is created, or
    takes the update of one of the item tasks of the batch that were
    waiting on the broker. *)
Lemma step_row (s s' : System) (b : string) :
  step SKILL_REGISTRY s s' ->
  batch_jobs (db s') !! b = batch_jobs (db s) !! b
  \/ batch_jobs (db s) !! b = None
  \/ 0 < pending_items b s /\
     exists success,
       batch_jobs (db s') !! b
       = (fun j => checked (counted success j)) <$> batch_jobs (db s) !! b.
Proof.
  intros Hstep.
  destruct Hstep as [submission s|skill_name rows s|m before after s Hbroker|e s].
  - left. unfold main.submit_batch. destruct (negb _); [done|].
    pose proof (queue_batch_db (main.BatchSubmission.skill_name submission)
                  (main.BatchSubmission.inputs submission)
                  (main.BatchSubmission.webhook_url submission) s) as Hdb.
    destruct (main.queue_batch _ _ _ s). cbn in *. by rewrite Hdb.
  - left. unfold main.submit_csv_batch.
    destruct (negb _); [done|]. destruct (negb _); [done|].
    pose proof (queue_batch_db skill_name rows None s) as Hdb.
    destruct (main.queue_batch _ _ _ s). cbn in *. by rewrite Hdb.
  - unfold run_task.
    destruct (msg_sig m) as [batch_id skill_name inputs webhook_url
                            |batch_id item_id skill_name input_data
                            |batch_id webhook_url] eqn:Hsig.
    + unfold process_skill_batch. cbn [db].
      destruct (registry.get_skill _ _) as [skill|]; [|by left].
      unfold create_batch_job.
      destruct (batch_jobs (db s) !! batch_id) eqn:Hfresh; [by left|].
      destruct (queue_items _ _ _ _ _ _) as [[queued|e] d'] eqn:Hq;
        pose proof (queue_items_jobs _ _ _ _ _ _ _ _ Hq) as Hjobs;
        cbn [batch_jobs] in Hjobs; cbn [snd db]; rewrite Hjobs;
        (destruct (decide (batch_id = b)) as [<-|Hne];
         [by right; left | left; by rewrite lookup_insert_ne]).
    + destruct (process_single_item_outcome m batch_id item_id skill_name input_data
                  {| world := world s; db := db s; broker := before ++ after |})
        as [-> | (skill & result & w & _ & [-> | [(countdown & ->) | ->]])];
        try (by left).
      cbn [db]. unfold stored.
      destruct (decide (b = batch_id)) as [->|Hne].
      * right; right. split.
        -- unfold pending_items. rewrite Hbroker, count_middle.
           unfold is_item_of at 2. rewrite Hsig, bool_decide_eq_true_2 by done.
           pose proof (count_nonneg (is_item_of batch_id) (before ++ after)). lia.
        -- eexists. apply update_batch_item_job.
      * left. by apply update_batch_item_other_job.
    + left. unfold notify_completion, get_batch_status. cbn [db].
      destruct (batch_jobs (db s) !! batch_id); [|done].
      by destruct (String.eqb _ _).
  - by left.
Qed.

(** A completed row has no item task left on the broker. *)
Lemma completed_nothing_pending (s : System) (b : string) (j : BatchJob.t) :
  invariant s ->
  batch_jobs (db s) !! b = Some j ->
  BatchJob.status j = value COMPLETED ->
  pending_items b s = 0.
Proof.
  intros Hinv Hj Hdone. specialize (Hinv b). unfold batch_ok in Hinv.
  rewrite Hj in Hinv. destruct Hinv as (_ & _ & Hroom & Hstatus & _).
  pose proof (count_nonneg (is_item_of b) (broker s)).
  unfold pending_items in *.
  destruct Hstatus as [[Hp _]|(_ & Hfull & _)]; [|lia].
  rewrite Hdone in Hp. discriminate.
Qed.

(** Once completed, the row of a batch never changes again. *)
Lemma completed_row_step (s s' : System) (b : string) (j : BatchJob.t) :
  invariant s ->
  batch_jobs (db s) !! b = Some j ->
  BatchJob.status j = value COMPLETED ->
  step SKILL_REGISTRY s s' ->
  batch_jobs (db s') !! b = Some j.
Proof.
  intros Hinv Hj Hdone Hstep.
  pose proof (completed_nothing_pending s b j Hinv Hj Hdone) as Hnone.
  destruct (step_row s s' b Hstep) as [-> | [Hnew | [Hpending _]]];
    [done | congruence | lia].
Qed.

Lemma completed_row_final (s s' : System) (b : string) (j : BatchJob.t) :
  reachable SKILL_REGISTRY s ->
  batch_jobs (db s) !! b = Some j ->
  BatchJob.status j = value COMPLETED ->
  steps SKILL_REGISTRY s s' ->
  batch_jobs (db s') !! b = Some j.
Proof.
  intros Hs Hj Hdone Hsteps.
  induction Hsteps as [s|s s1 s' Hstep _ IH]; [done|].
  apply IH.
  - by eapply reachable_step.
  - eapply completed_row_step; eauto using reachable_invariant.
Qed.

(** The status of a row in a reachable state, read off the counters. *)
Lemma completed_iff (s : System) (b : string) (j : BatchJob.t) :
  invariant s ->
  batch_jobs (db s) !! b = Some j ->
  BatchJob.status j = value COMPLETED <->
  BatchJob.completed_items j + BatchJob.failed_items j = BatchJob.total_items j /\
  0 < BatchJob.completed_items j + BatchJob.failed_items j.
Proof.
  intros Hinv Hj. specialize (Hinv b). unfold batch_ok in Hinv.
  rewrite Hj in Hinv. destruct Hinv as (_ & _ & _ & Hstatus & _).
  split.
  - intros Hdone. destruct Hstatus as [[Hp _]|(_ & Hfull & Hpos)]; [|lia].
    rewrite Hdone in Hp. discriminate.
  - intros [Hfull Hpos]. destruct Hstatus as [[_ Hless]|(Hdone & _)]; [lia|done].
Qed.

(** A step that changes a row is an item update of that batch. *)
Lemma changed_row_counts (s s' : System) (b : string) (j j' : BatchJob.t) :
  step SKILL_REGISTRY s s' ->
  batch_jobs (db s) !! b = Some j ->
  batch_jobs (db s') !! b = Some j' ->
  j' <> j ->
  0 < pending_items b s /\
  BatchJob.total_items j' = BatchJob.total_items j /\
  (BatchJob.completed_items j' = BatchJob.completed_items j + 1 /\
   BatchJob.failed_items j' = BatchJob.failed_items j
   \/
   BatchJob.completed_items j' = BatchJob.completed_items j /\
   BatchJob.failed_items j' = BatchJob.failed_items j + 1).
Proof.
  intros Hstep Hj Hj' Hne.
  destruct (step_row s s' b Hstep) as [Hsame | [Hnew | (Hpending & success & Hupd)]];
    [congruence | congruence |].
  rewrite Hj, Hj' in Hupd. cbn in Hupd. injection Hupd as ->.
  split; [done|].
  pose proof (checked_counted_counters success j) as Hcnt. cbn zeta in Hcnt.
  destruct Hcnt as [Htot Hcnt]. split; [done|].
  destruct success; [left | right]; exact Hcnt.
Qed.

End bookkeeping.

(** ** Batches, from submission to notification *)

Section batches.
Context `{Runtime} (SKILL_REGISTRY : gmap string BaseSkill).
Import models celery connection tasks system.

(** C1: in every reachable state the row of a batch is completed exactly
    when its two counters add up to its total after at least one item
    update.  A step that changes the row starts from a row that is not
    completed and ends in a completed row exactly when the counters have
    reached the total; once the row is completed no later step changes
    it, so the transition is seen at most once; and storing one more
    outcome on a completed row would leave the status completed. *)
Theorem completed_exactly_when_all_items_done
    (s : System) (b : string) (j : BatchJob.t) :
  reachable SKILL_REGISTRY s ->
  batch_jobs (db s) !! b = Some j ->
  (BatchJob.status j = value COMPLETED <->
     BatchJob.completed_items j + BatchJob.failed_items j = BatchJob.total_items j /\
     0 < BatchJob.completed_items j + BatchJob.failed_items j)
  /\ (forall (s' : System) (j' : BatchJob.t),
        step SKILL_REGISTRY s s' ->
        batch_jobs (db s') !! b = Some j' ->
        j' <> j ->
        BatchJob.status j <> value COMPLETED /\
        (BatchJob.status j' = value COMPLETED <->
           BatchJob.completed_items j' + BatchJob.failed_items j'
           = BatchJob.total_items j'))
  /\ (BatchJob.status j = value COMPLETED ->
        forall s' : System,
          steps SKILL_REGISTRY s s' -> batch_jobs (db s') !! b = Some j)
  /\ (BatchJob.status j = value COMPLETED ->
        forall (item_id : string) (result : SkillResult.t) (w : World),
        exists j' : BatchJob.t,
          batch_jobs (stored b item_id result w (db s)) !! b = Some j' /\
          BatchJob.status j' = value COMPLETED).
Proof.
  intros Hs Hj.
  pose proof (reachable_invariant SKILL_REGISTRY s Hs) as Hinv.
  split; [exact (completed_iff s b j Hinv Hj)|]. split; [|split].
  - intros s' j' Hstep Hj' Hne. split.
    + intros Hdone.
      pose proof (completed_row_step SKILL_REGISTRY s s' b j Hinv Hj Hdone Hstep).
      congruence.
    + pose proof (step_keeps_invariant SKILL_REGISTRY s s' Hinv Hstep) as Hinv'.
      destruct (changed_row_counts SKILL_REGISTRY s s' b j j' Hstep Hj Hj' Hne)
        as (_ & _ & Hcnt).
      pose proof (Hinv b) as Hb. unfold batch_ok in Hb. rewrite Hj in Hb.
      destruct Hb as (Hcj & Hfj & _).
      rewrite (completed_iff s' b j' Hinv' Hj').
      split; [tauto|]. intros Hfull. split; [done|]. lia.
  - intros Hdone s' Hsteps. by eapply completed_row_final.
  - intros Hdone item_id result w. unfold stored.
    rewrite update_batch_item_job, Hj. cbn.
    eexists. split; [reflexivity|]. by apply checked_counted_completed.
Qed.

(** C2: in every reachable state the two counters of a batch are not
    negative and add up to at most the total; a step that changes the row
    keeps the total and moves exactly one of the two counters by exactly
    one; and storing the outcome of an item moves the counter of
    completed items by one for a success, the counter of failed items by
    one for a failure, and nothing else. *)
Theorem counters_within_total (s : System) (b : string) (j : BatchJob.t) :
  reachable SKILL_REGISTRY s ->
  batch_jobs (db s) !! b = Some j ->
  0 <= BatchJob.completed_items j
  /\ 0 <= BatchJob.failed_items j
  /\ BatchJob.completed_items j + BatchJob.failed_items j <= BatchJob.total_items j
  /\ (forall (s' : System) (j' : BatchJob.t),
        step SKILL_REGISTRY s s' ->
        batch_jobs (db s') !! b = Some j' ->
        j' <> j ->
        BatchJob.total_items j' = BatchJob.total_items j /\
        (BatchJob.completed_items j' = BatchJob.completed_items j + 1 /\
         BatchJob.failed_items j' = BatchJob.failed_items j
         \/
         BatchJob.completed_items j' = BatchJob.completed_items j /\
         BatchJob.failed_items j' = BatchJob.failed_items j + 1))
  /\ (forall (item_id : string) (result : SkillResult.t) (w : World),
        exists j' : BatchJob.t,
          batch_jobs (stored b item_id result w (db s)) !! b = Some j' /\
          BatchJob.total_items j' = BatchJob.total_items j /\
          if SkillResult.success result
          then BatchJob.completed_items j' = BatchJob.completed_items j + 1 /\
               BatchJob.failed_items j' = BatchJob.failed_items j
          else BatchJob.completed_items j' = BatchJob.completed_items j /\
               BatchJob.failed_items j' = BatchJob.failed_items j + 1).
Proof.
  intros Hs Hj.
  pose proof (reachable_invariant SKILL_REGISTRY s Hs b) as Hb.
  unfold batch_ok in Hb. rewrite Hj in Hb.
  destruct Hb as (Hcj & Hfj & Hroom & _).
  pose proof (count_nonneg (is_item_of b) (broker s)) as Hpos.
  unfold pending_items in Hroom.
  split; [done|]. split; [done|]. split; [lia|]. split.
  - intros s' j' Hstep Hj' Hne.
    by destruct (changed_row_counts SKILL_REGISTRY s s' b j j' Hstep Hj Hj' Hne)
      as (_ & Htot & Hcnt).
  - intros item_id result w. unfold stored.
    rewrite update_batch_item_job, Hj. cbn.
    eexists. split; [reflexivity|].
    apply checked_counted_counters.
Qed.

(** C10: a completion check of a batch that is not completed (or not
    there) does nothing but send the same check again, to run after 30
    seconds.  A check of a completed batch makes one POST of the batch id,
    the status and the three counts to the callback target; when that
    raises, the failure is printed; nothing is sent again.  In every
    reachable state the deliveries made for a batch and the checks of it
    still waiting number at most one together. *)
Theorem completion_notified_at_most_once
    (s : System) (batch_id webhook_url : string) :
  let out := notify_completion batch_id webhook_url s in
  let recheck :=
    out = (Returned PyNone,
           {| world := world s; db := db s;
              broker := broker s
                        ++ [fresh_message (Some 30)
                              (notify_completion_s batch_id webhook_url)] |}) in
  match get_batch_status batch_id (db s) with
  | Some status =>
      if String.eqb (StatusDict.status status) "completed" then
        let payload :=
          PyDict [("batch_id", PyStr batch_id);
                  ("status", PyStr "completed");
                  ("total", PyInt (StatusDict.total status));
                  ("completed", PyInt (StatusDict.completed status));
                  ("failed", PyInt (StatusDict.failed status))] in
        exists exc e,
          httpx_post webhook_url payload (ext (world s)) = (exc, e) /\
          out = (Returned PyNone,
                 {| world :=
                      {| ext := e;
                         trace :=
                           trace (world s) ++ EvPost webhook_url payload ::
                             match exc with
                             | None => []
                             | Some msg =>
                                 [EvPrint ("Webhook notification failed: " +:+ msg)]
                             end |};
                    db := db s; broker := broker s |})
      else recheck
  | None => recheck
  end
  /\ (reachable SKILL_REGISTRY s ->
      deliveries batch_id s + pending_checks batch_id s <= 1).
Proof.
  intros out recheck. split.
  - subst out recheck. unfold notify_completion.
    destruct (get_batch_status batch_id (db s)) as [status|]; [|reflexivity].
    destruct (String.eqb _ _); [|reflexivity].
    destruct (send_webhook_trace webhook_url (webhook_payload batch_id status) (world s))
      as (exc & e & Hpost & Hsent).
    exists exc, e. split; [exact Hpost|]. by rewrite Hsent.
  - intros Hs.
    pose proof (reachable_invariant SKILL_REGISTRY s Hs batch_id) as Hb.
    unfold batch_ok in Hb.
    destruct (batch_jobs (db s) !! batch_id).
    + by destruct Hb as (_ & _ & _ & _ & Honce).
    + destruct Hb as (_ & -> & ->). lia.
Qed.

(** Every stored outcome counts once: after [n] of them the two counters
    have grown by [n] together, also beyond the total when more outcomes
    are stored than the batch has items. *)
Lemma stored_all_counted (b : string)
    (outcomes : list (string * SkillResult.t * World)) :
  forall (d : DB) (j : BatchJob.t),
    batch_jobs d !! b = Some j ->
    exists j' : BatchJob.t,
      batch_jobs (stored_all b outcomes d) !! b = Some j' /\
      BatchJob.total_items j' = BatchJob.total_items j /\
      BatchJob.completed_items j' + BatchJob.failed_items j'
      = BatchJob.completed_items j + BatchJob.failed_items j
        + Z.of_nat (length outcomes).
Proof.
  induction outcomes as [|[[item_id result] w] outcomes IH]; intros d j Hj.
  - exists j. cbn. repeat split; [done|lia].
  - cbn [stored_all foldl].
    assert (Hj1 : batch_jobs (stored b item_id result w d) !! b
                  = Some (checked (counted (SkillResult.success result) j)))
      by (unfold stored; by rewrite update_batch_item_job, Hj).
    destruct (IH _ _ Hj1) as (j' & Hj' & Htot & Hsum).
    pose proof (checked_counted_counters (SkillResult.success result) j) as Hcnt.
    cbn zeta in Hcnt. destruct Hcnt as [Htot1 Hcnt].
    exists j'. split; [exact Hj'|]. split; [congruence|].
    rewrite Hsum. cbn [length].
    destruct (SkillResult.success result); lia.
Qed.

(** *** Submission *)

(** An unknown skill is turned away at the door by both endpoints, and
    by the batch task itself; nothing is written or queued. *)
Lemma unknown_skill_rejected (submission : main.BatchSubmission.t)
    (rows : list pyval) (s : System) :
  SKILL_REGISTRY !! main.BatchSubmission.skill_name submission = None ->
  (exists exc, main.submit_batch SKILL_REGISTRY submission s = (inr exc, s)) /\
  (exists exc,
      main.submit_csv_batch SKILL_REGISTRY
        (main.BatchSubmission.skill_name submission) rows s = (inr exc, s)) /\
  (forall self batch_id,
      exists exc,
        process_skill_batch SKILL_REGISTRY self batch_id
          (main.BatchSubmission.skill_name submission)
          (main.BatchSubmission.inputs submission)
          (main.BatchSubmission.webhook_url submission) s = (Raised exc, s)).
Proof.
  intros Hmiss.
  assert (Hreg : registry.registered SKILL_REGISTRY
                   (main.BatchSubmission.skill_name submission) = false).
  { unfold registry.registered. rewrite Hmiss.
    apply bool_decide_eq_false_2. by intros [? ?]. }
  repeat split.
  - unfold main.submit_batch. rewrite Hreg. eauto.
  - unfold main.submit_csv_batch. rewrite Hreg. eauto.
  - intros self batch_id. unfold process_skill_batch, registry.get_skill.
    rewrite Hmiss. eauto.
Qed.

(** The CSV endpoint turns an upload without rows away. *)
Lemma csv_empty_rejected (skill_name : string) (s : System) :
  exists exc, main.submit_csv_batch SKILL_REGISTRY skill_name [] s = (inr exc, s).
Proof.
  unfold main.submit_csv_batch. destruct (negb _); cbn; eauto.
Qed.

(** A batch without items stays in processing for ever. *)
Lemma empty_batch_never_completes (s : System) (b : string) (j : BatchJob.t) :
  reachable SKILL_REGISTRY s ->
  batch_jobs (db s) !! b = Some j ->
  BatchJob.total_items j = 0 ->
  BatchJob.status j = value PROCESSING.
Proof.
  intros Hs Hj Hzero.
  pose proof (reachable_invariant SKILL_REGISTRY s Hs b) as Hb.
  unfold batch_ok in Hb. rewrite Hj in Hb.
  destruct Hb as (_ & _ & _ & [[Hp _]|(_ & _ & Hpos)] & _); [done|lia].
Qed.

(** C9, where the code departs from it: the JSON endpoint takes a
    submission with an empty list of inputs for a registered skill.  It
    answers with a batch id and queues the batch task; run with that id
    unused, the task writes a job row with total 0 and status processing,
    and such a row never leaves that status. *)
Theorem empty_submission_accepted (skill_name : string)
    (webhook_url : option string) (s : System) :
  registry.registered SKILL_REGISTRY skill_name = true ->
  let submission := main.BatchSubmission.make skill_name [] webhook_url in
  let out := main.submit_batch SKILL_REGISTRY submission s in
  let sig := process_skill_batch_s (uuid4 (ext (world s))).1 skill_name [] webhook_url in
  (exists response,
      out.1 = inl response /\
      main.BatchResponse.batch_id response = (uuid4 (ext (world s))).1 /\
      main.BatchResponse.item_count response = 0)
  /\ broker out.2 = broker s ++ [fresh_message None sig]
  /\ db out.2 = db s
  /\ (forall s1 : System,
        batch_jobs (db s1) !! (uuid4 (ext (world s))).1 = None ->
        batch_jobs (db (run_task SKILL_REGISTRY (fresh_message None sig) s1).2)
          !! (uuid4 (ext (world s))).1
        = Some (BatchJob.make (uuid4 (ext (world s))).1 skill_name
                  (value PROCESSING) 0 0 0))
  /\ (forall (s2 : System) (b : string) (j : BatchJob.t),
        reachable SKILL_REGISTRY s2 ->
        batch_jobs (db s2) !! b = Some j ->
        BatchJob.total_items j = 0 ->
        BatchJob.status j = value PROCESSING).
Proof.
  intros Hreg submission out sig. subst out sig submission.
  unfold main.submit_batch, main.queue_batch. cbn [main.BatchSubmission.skill_name
    main.BatchSubmission.inputs main.BatchSubmission.webhook_url].
  rewrite Hreg. cbn [negb].
  destruct (uuid4 (ext (world s))) as [batch_id e]. cbn [fst snd broker db length].
  split; [eexists; repeat split|]. split; [reflexivity|]. split; [reflexivity|].
  split; [|exact (empty_batch_never_completes)].
  intros s1 Hfresh. unfold run_task, fresh_message. cbn [msg_sig].
  unfold process_skill_batch, registry.get_skill.
  unfold registry.registered in Hreg. apply bool_decide_eq_true_1 in Hreg.
  destruct Hreg as [skill ->].
  unfold create_batch_job. rewrite Hfresh. cbn [queue_items snd db batch_jobs length].
  by rewrite lookup_insert_eq.
Qed.

End batches.

(** ** The example installation at work *)

Section at_work.
Import models connection celery tasks system.
#[local] Existing Instance example.runtime.

(** A worker taking the first message is one step of the system. *)
Lemma work_reachable (s : System) :
  reachable example.SKILL_REGISTRY s ->
  reachable example.SKILL_REGISTRY (example.work s).
Proof.
  intros Hs. unfold example.work.
  destruct (broker s) as [|m rest] eqn:Hbroker; [done|].
  eapply reachable_step; [exact Hs|].
  exact (step_task example.SKILL_REGISTRY m [] rest s Hbroker).
Qed.

Lemma submitted_reachable (submission : main.BatchSubmission.t) :
  reachable example.SKILL_REGISTRY
    (main.submit_batch example.SKILL_REGISTRY submission example.s0).2.
Proof.
  eapply reachable_step; [apply reachable_initial|]. apply step_submit.
Qed.

Lemma processed_reachable : reachable example.SKILL_REGISTRY example.processed.
Proof. do 2 apply work_reachable. apply submitted_reachable. Qed.

Lemma notified_reachable : reachable example.SKILL_REGISTRY example.notified.
Proof. apply work_reachable, processed_reachable. Qed.

(** The batch of one good item is completed by its item task, and the
    check that follows makes the one delivery. *)
Example processed_row :
  batch_jobs (db example.processed) !! "batch-0"
  = Some (BatchJob.make "batch-0" "titled" "completed" 1 1 0).
Proof. vm_compute. reflexivity. Qed.

Example notified_trace :
  trace (world example.notified)
  = [EvExecute "titled" example.good_input;
     EvPost "http://hook"
       (PyDict [("batch_id", PyStr "batch-0"); ("status", PyStr "completed");
                ("total", PyInt 1); ("completed", PyInt 1); ("failed", PyInt 0)]);
     EvPrint "Webhook notification failed: connection refused"]
  /\ broker example.notified = [].
Proof. vm_compute. auto. Qed.

(** The delays of a rate-limited item: 30, 60, 90, 120 and 150 seconds,
    and then no further message. *)
Example rate_limit_delays :
  map (fun k => map msg_countdown (broker (Nat.iter k example.work example.limited_queued)))
    [1; 2; 3; 4; 5; 6]%nat
  = [[Some 30]; [Some 60]; [Some 90]; [Some 120]; [Some 150]; []].
Proof. vm_compute. reflexivity. Qed.

(** After its last retry the rate-limited item is gone from the broker,
    its row was never written and the batch still counts no failure. *)
Example exhausted_item_left_unrecorded :
  broker example.exhausted = []
  /\ batch_jobs (db example.exhausted) !! "batch-0"
     = Some (BatchJob.make "batch-0" "limited" "processing" 1 0 0)
  /\ batch_items (db example.exhausted) !! "batch-0:0"
     = Some (BatchItem.make "batch-0:0" "batch-0" example.good_input
               PyNone None None None 0 0 None).
Proof. vm_compute. auto. Qed.

End at_work.

Lemma completed_exactly_when_all_items_done_witness :
  let j := models.BatchJob.make "batch-0" "titled" "completed" 1 1 0 in
  (models.BatchJob.status j = models.value models.COMPLETED <->
     models.BatchJob.completed_items j + models.BatchJob.failed_items j
     = models.BatchJob.total_items j /\
     0 < models.BatchJob.completed_items j + models.BatchJob.failed_items j)
  /\ (forall s' : @tasks.System example.runtime,
        @system.steps example.runtime example.SKILL_REGISTRY example.processed s' ->
        connection.batch_jobs (tasks.db s') !! "batch-0" = Some j).
Proof.
  intros j.
  destruct (@completed_exactly_when_all_items_done example.runtime
              example.SKILL_REGISTRY example.processed "batch-0" j
              processed_reachable processed_row)
    as (Hiff & _ & Hfinal & _).
  split; [exact Hiff|]. exact (Hfinal eq_refl).
Defined.

Lemma counters_within_total_witness :
  let j := models.BatchJob.make "batch-0" "titled" "completed" 1 1 0 in
  0 <= models.BatchJob.completed_items j
  /\ 0 <= models.BatchJob.failed_items j
  /\ models.BatchJob.completed_items j + models.BatchJob.failed_items j
     <= models.BatchJob.total_items j.
Proof.
  intros j.
  destruct (@counters_within_total example.runtime
              example.SKILL_REGISTRY example.processed "batch-0" j
              processed_reachable processed_row)
    as (Hc & Hf & Hsum & _).
  auto.
Defined.

Lemma retry_policy_witness :
  @tasks.process_single_item example.runtime example.SKILL_REGISTRY
    example.first_run "batch-0" "batch-0:0" "limited" example.good_input
    example.limited_queued
  = (celery.Retried,
     {| tasks.world := example.limited_world;
        tasks.db := tasks.db example.limited_queued;
        tasks.broker := tasks.broker example.limited_queued
                        ++ [celery.resent example.first_run 30] |}).
Proof.
  exact (@retry_policy example.runtime example.SKILL_REGISTRY
           example.first_run "batch-0" "batch-0:0" "limited" example.good_input
           example.limited_queued example.limited_skill
           example.limited_result example.limited_world eq_refl eq_refl).
Defined.

Lemma exhausted_retries_store_nothing_witness :
  let out :=
    @tasks.process_single_item example.runtime example.SKILL_REGISTRY
      example.last_run "batch-0" "batch-0:0" "limited" example.good_input
      example.limited_queued in
  (exists exc, out.1 = celery.Raised exc) /\
  tasks.db out.2 = tasks.db example.limited_queued /\
  tasks.broker out.2 = tasks.broker example.limited_queued.
Proof.
  refine (@exhausted_retries_store_nothing example.runtime example.SKILL_REGISTRY
            example.last_run "batch-0" "batch-0:0" "limited" example.good_input
            example.limited_queued example.limited_skill
            example.limited_result example.limited_world eq_refl eq_refl
            (or_introl eq_refl) _).
  vm_compute. discriminate.
Defined.

Lemma empty_submission_accepted_witness :
  let out :=
    @main.submit_batch example.runtime example.SKILL_REGISTRY
      (main.BatchSubmission.make "titled" [] None) example.s0 in
  (exists response,
      out.1 = inl response /\
      main.BatchResponse.batch_id response = "batch-0" /\
      main.BatchResponse.item_count response = 0)
  /\ tasks.broker out.2
     = [celery.fresh_message None
          (celery.process_skill_batch_s "batch-0" "titled" [] None)]
  /\ connection.batch_jobs
       (tasks.db
          (@tasks.run_task example.runtime example.SKILL_REGISTRY
             (celery.fresh_message None
                (celery.process_skill_batch_s "batch-0" "titled" [] None))
             out.2).2) !! "batch-0"
     = Some (models.BatchJob.make "batch-0" "titled" "processing" 0 0 0).
Proof.
  intros out.
  destruct (@empty_submission_accepted example.runtime example.SKILL_REGISTRY
              "titled" None example.s0 eq_refl)
    as (Hresponse & Hbroker & _ & Hrow & _).
  split; [exact Hresponse|]. split; [exact Hbroker|].
  exact (Hrow out.2 eq_refl).
Defined.

Lemma completion_notified_at_most_once_witness :
  @system.deliveries example.runtime "batch-0" example.notified
  + @system.pending_checks example.runtime "batch-0" example.notified <= 1
  /\ @system.deliveries example.runtime "batch-0" example.notified = 1.
Proof.
  split; [|reflexivity].
  exact (proj2 (@completion_notified_at_most_once example.runtime
                  example.SKILL_REGISTRY example.notified "batch-0" "http://hook")
           notified_reachable).
Defined.

(** * Further properties *)

(** ** Fenced answers *)

Section fenced_answers.
Import pystr claude_client.

Lemma str_app_cons (x : ascii) (a b : string) :
  String x a +:+ b = String x (a +:+ b).
Proof. reflexivity. Qed.

Lemma str_app_assoc (a b c : string) : (a +:+ b) +:+ c = a +:+ (b +:+ c).
Proof.
  induction a as [|x a' IH]; [reflexivity|]. by rewrite !str_app_cons, IH.
Qed.

Lemma single_line_app (a b : string) :
  single_line (a +:+ b) = single_line a && single_line b.
Proof.
  induction a as [|x a' IH]; [reflexivity|].
  rewrite str_app_cons. cbn [single_line]. by rewrite IH, andb_assoc.
Qed.

(** A text without line break is its own single line. *)
Lemma split_lines_single (s : string) :
  single_line s = true -> split_lines s = [s].
Proof.
  induction s as [|c s IH]; cbn; [reflexivity|].
  intros [Hc Hs]%andb_true_iff.
  apply negb_true_iff in Hc. rewrite Hc, (IH Hs). reflexivity.
Qed.

(** The lines of two texts put together with a line break are the lines of
    the first followed by the lines of the second. *)
Lemma split_lines_app (a b : string) :
  split_lines (a +:+ String newline b) = split_lines a ++ split_lines b.
Proof.
  induction a as [|c a IH].
  - change (EmptyString +:+ String newline b) with (String newline b).
    cbn [split_lines]. by rewrite Ascii.eqb_refl.
  - rewrite str_app_cons. cbn [split_lines].
    rewrite IH. destruct (Ascii.eqb c newline); [reflexivity|].
    pose proof (split_lines_not_nil a) as Ha.
    destruct (split_lines a) as [|l ls]; [done|reflexivity].
Qed.

Lemma rstrip_nonspace (s : string) (c : ascii) :
  isspace c = false ->
  rstrip (s +:+ String c EmptyString) = s +:+ String c EmptyString.
Proof.
  intros Hc. induction s as [|a s IH].
  - change (EmptyString +:+ String c EmptyString) with (String c EmptyString).
    cbn [rstrip]. by rewrite Hc.
  - rewrite str_app_cons. cbn [rstrip]. rewrite IH. by destruct s.
Qed.

Lemma fence_prefix (rest : string) : startswith (fence +:+ rest) fence = true.
Proof. destruct rest; reflexivity. Qed.

Lemma lstrip_fence (rest : string) : lstrip (fence +:+ rest) = fence +:+ rest.
Proof. reflexivity. Qed.

Lemma rstrip_fence (s : string) : rstrip (s +:+ fence) = s +:+ fence.
Proof.
  change fence with (String backtick (String backtick EmptyString)
                     +:+ String backtick EmptyString).
  rewrite <- str_app_assoc. by apply rstrip_nonspace.
Qed.

(** A text between two fence markers has no white space to strip. *)
Lemma strip_fenced (inner : string) :
  strip (fence +:+ (inner +:+ fence)) = fence +:+ (inner +:+ fence).
Proof.
  unfold strip. rewrite lstrip_fence, <- str_app_assoc. apply rstrip_fence.
Qed.

(** X1: a block that opens with the fence marker and an info word on
    the first line and closes with the fence marker on a line of its own
    is parsed as exactly what stands between those two lines, whatever
    that is. *)
Theorem fenced_block_unwrapped (info body : string) :
  single_line info = true ->
  text_to_parse
    (fence +:+ info +:+ String newline (body +:+ String newline fence))
  = body.
Proof.
  intros Hinfo. unfold text_to_parse.
  assert (Hinner : info +:+ String newline (body +:+ String newline fence)
                   = (info +:+ String newline (body +:+ String newline EmptyString))
                     +:+ fence).
  { rewrite str_app_assoc, str_app_cons. by rewrite str_app_assoc. }
  rewrite Hinner, strip_fenced, <- Hinner.
  rewrite strip_code_block_fenced by apply fence_prefix.
  rewrite <- str_app_assoc, !split_lines_app.
  rewrite (split_lines_single (fence +:+ info))
    by (by rewrite single_line_app, Hinfo).
  rewrite (split_lines_single fence) by reflexivity.
  cbn [app]. rewrite slice_inner. apply join_split_lines.
Qed.

(** X2: a fenced answer written on one line loses everything: the
    parser is given the empty text. *)
Theorem one_line_fence_parses_nothing (text : string) :
  startswith (strip text) fence = true ->
  single_line (strip text) = true ->
  text_to_parse text = EmptyString.
Proof.
  intros Hfence Hline. unfold text_to_parse.
  rewrite strip_code_block_fenced by done.
  rewrite split_lines_single by done.
  by rewrite slice_short.
Qed.

End fenced_answers.

(** ** Outcomes of the client and of [run] *)

Section outcomes.
Context `{Runtime}.
Import claude_client.


(** X4: when the raw input is valid, [run] calls [execute] exactly
    once, on the validated input.  Whatever [execute] reports, the outcome
    of [run] has the same output and the same tokens, and its latency is
    the measured one, not the one [execute] wrote.  [run] never turns a
    failure into a success, and hands a failure on as it is but for the
    latency. *)
Theorem run_wraps_execute (self : BaseSkill) (raw_input : pyval)
    (validated : Model) (r : SkillResult.t) (e : Ext) (w : World) :
  validate_input self raw_input = inl validated ->
  execute self validated (ext w) = (r, e) ->
  let out := run self raw_input w in
  out.2 = {| ext := e; trace := trace w ++ [EvExecute (name self) validated] |}
  /\ SkillResult.output out.1 = SkillResult.output r
  /\ SkillResult.tokens_used out.1 = SkillResult.tokens_used r
  /\ SkillResult.latency_ms out.1 = measured w e
  /\ (SkillResult.success out.1 = true -> SkillResult.success r = true)
  /\ (SkillResult.success r = false ->
      out.1 = SkillResult.set_latency_ms r (measured w e)).
Proof.
  intros Hin Hex out. subst out.
  rewrite (run_valid_input _ _ _ _ _ _ Hin Hex).
  destruct r as [success output error_type error_message tokens latency]. cbn.
  destruct success; cbn; [|by auto 10].
  destruct (truthy output); cbn; [|by auto 10].
  destruct (validate_output self output); cbn; by auto 10.
Qed.

(** X5: if every failure [execute] reports is classified, so is every
    failure [run] reports. *)
Theorem run_failures_classified (self : BaseSkill) (raw_input : pyval) (w : World) :
  (forall (validated : Model) (e : Ext),
      SkillResult.success (execute self validated e).1 = false ->
      is_Some (SkillResult.error_type (execute self validated e).1)) ->
  SkillResult.success (run self raw_input w).1 = false ->
  is_Some (SkillResult.error_type (run self raw_input w).1).
Proof.
  intros Hexec.
  destruct (validate_input self raw_input) as [validated|detail] eqn:Hin.
  - destruct (execute self validated (ext w)) as [r e] eqn:Hex.
    specialize (Hexec validated (ext w)). rewrite Hex in Hexec. cbn in Hexec.
    rewrite (run_valid_input _ _ _ _ _ _ Hin Hex).
    destruct r as [success output error_type error_message tokens latency].
    cbn in *. destruct success; cbn; [|exact Hexec].
    destruct (truthy output); cbn; [|done].
    destruct (validate_output self output); cbn; [done|]. by eexists.
  - unfold run. rewrite Hin. cbn. by eexists.
Qed.

End outcomes.

(** ** The two tables *)

Section tables.
Import models connection.

(** X6: creating a job row either fails on a batch id that is already
    there, or succeeds on a new one; after a success the status of the
    batch reads processing with the given total and no item counted, the
    status of every other batch reads as before, and no item row has
    changed. *)
Theorem create_batch_job_then_status (batch_id skill_name : string)
    (total_items : Z) (d : DB) :
  match create_batch_job batch_id skill_name total_items d with
  | inl d' =>
      batch_jobs d !! batch_id = None /\
      get_batch_status batch_id d'
      = Some (StatusDict.make (value PROCESSING) total_items 0 0) /\
      (forall b, b <> batch_id -> get_batch_status b d' = get_batch_status b d) /\
      batch_items d' = batch_items d
  | inr exc => exc = IntegrityError /\ is_Some (batch_jobs d !! batch_id)
  end.
Proof.
  unfold create_batch_job.
  destruct (batch_jobs d !! batch_id) as [j|] eqn:Hj; [by eauto|].
  split; [done|]. unfold get_batch_status. cbn [batch_jobs batch_items].
  rewrite lookup_insert_eq. split; [done|]. split; [|done].
  intros b Hne. by rewrite lookup_insert_ne.
Qed.

(** The results of a batch are the item rows that carry its id. *)
Lemma get_batch_results_elem (batch_id : string) (d : DB) (x : ResultDict.t) :
  x ∈ get_batch_results batch_id d <->
  exists (key : string) (item : BatchItem.t),
    batch_items d !! key = Some item /\
    BatchItem.batch_id item = batch_id /\
    x = result_dict item.
Proof.
  unfold get_batch_results. rewrite list_elem_of_fmap. split.
  - intros (item & -> & [Hb Hin]%list_elem_of_filter).
    apply list_elem_of_fmap in Hin as ([key item'] & -> & Hin).
    apply elem_of_map_to_list in Hin. by exists key, item'.
  - intros (key & item & Hitem & Hb & ->). exists item. split; [done|].
    apply list_elem_of_filter. split; [done|].
    apply list_elem_of_fmap. exists (key, item). split; [done|].
    by apply elem_of_map_to_list.
Qed.

(** X7: once the outcome of an item has been stored, the results of its
    batch show it: the entry of the item carries the stored success flag,
    output, error and counts, next to the id and input the row had. *)
Theorem stored_outcome_in_results (batch_id item_id : string) (success : bool)
    (output : pyval) (error_type error_message : option string)
    (tokens_used latency_ms : Z) (now : Q) (d : DB) (item : BatchItem.t) :
  batch_items d !! item_id = Some item ->
  BatchItem.batch_id item = batch_id ->
  ResultDict.make (BatchItem.id item) (BatchItem.input_data item) output
    (Some success) error_type error_message tokens_used latency_ms
  ∈ get_batch_results batch_id
      (update_batch_item batch_id item_id success output error_type
         error_message tokens_used latency_ms now d).
Proof.
  intros Hitem Hbatch. apply get_batch_results_elem.
  exists item_id, (set_result success output error_type error_message
                     tokens_used latency_ms now item).
  unfold update_batch_item. cbn [batch_items].
  rewrite lookup_alter_eq, Hitem. done.
Qed.

(** X8: the update does not look whether the item has a row: for an item
    id without row no item row is written, and the batch named still
    counts one more item and is completed when that reaches its total. *)
Theorem update_counts_without_item_row (batch_id item_id : string) (success : bool)
    (output : pyval) (error_type error_message : option string)
    (tokens_used latency_ms : Z) (now : Q) (d : DB) (j : BatchJob.t) :
  batch_items d !! item_id = None ->
  batch_jobs d !! batch_id = Some j ->
  let d' := update_batch_item batch_id item_id success output error_type
              error_message tokens_used latency_ms now d in
  batch_items d' = batch_items d /\
  exists j', batch_jobs d' !! batch_id = Some j' /\
    BatchJob.completed_items j' + BatchJob.failed_items j'
    = BatchJob.completed_items j + BatchJob.failed_items j + 1 /\
    (BatchJob.total_items j
       <= BatchJob.completed_items j + BatchJob.failed_items j + 1 ->
     BatchJob.status j' = value COMPLETED).
Proof.
  intros Hitem Hjob d'. split.
  - subst d'. unfold update_batch_item. cbn [batch_items].
    apply alter_id. intros it Hit. congruence.
  - subst d'. rewrite update_batch_item_job, Hjob. cbn.
    eexists. split; [reflexivity|].
    pose proof (checked_counted_counters success j) as Hcnt.
    pose proof (checked_counted_status success j) as Hst.
    cbn zeta in Hcnt, Hst. destruct Hcnt as [_ Hcnt]. split.
    + destruct success; lia.
    + intros Hfull. rewrite Hst.
      destruct (Z.leb_spec (BatchJob.total_items j)
                  (BatchJob.completed_items j + BatchJob.failed_items j + 1));
        [done|lia].
Qed.

(** X9: nor does the update look whether the batch has a row: for a
    batch id without row the item row is written all the same, and the
    table of jobs is left as it was, without a row for that id. *)
Theorem update_unknown_batch_writes_item (batch_id item_id : string) (success : bool)
    (output : pyval) (error_type error_message : option string)
    (tokens_used latency_ms : Z) (now : Q) (d : DB) (item : BatchItem.t) :
  batch_jobs d !! batch_id = None ->
  batch_items d !! item_id = Some item ->
  let d' := update_batch_item batch_id item_id success output error_type
              error_message tokens_used latency_ms now d in
  batch_jobs d' = batch_jobs d /\
  batch_items d' !! item_id
  = Some (BatchItem.make (BatchItem.id item) (BatchItem.batch_id item)
            (BatchItem.input_data item) output (Some success) error_type
            error_message tokens_used latency_ms (Some now)).
Proof.
  intros Hjob Hitem d'. subst d'. unfold update_batch_item.
  cbn [batch_jobs batch_items]. split.
  - assert (Hsame : (if success then alter incr_completed batch_id (batch_jobs d)
                     else alter incr_failed batch_id (batch_jobs d))
                    = batch_jobs d)
      by (destruct success; apply alter_id; intros x Hx; congruence).
    by rewrite Hsame, Hjob.
  - by rewrite lookup_alter_eq, Hitem.
Qed.

End tables.

(** ** The batch task *)

Section batch_task.
Context `{Runtime} (SKILL_REGISTRY : gmap string BaseSkill).
Import models celery connection tasks system.

(** The row [create_batch_item] writes. *)
Lemma create_batch_item_row (batch_id item_id : string) (input_data : pyval)
    (d d' : DB) :
  create_batch_item batch_id item_id input_data d = inl d' ->
  batch_items d !! item_id = None /\
  batch_items d'
  = <[item_id := BatchItem.make item_id batch_id input_data PyNone
                   None None None 0 0 None]> (batch_items d).
Proof.
  unfold create_batch_item.
  destruct (batch_items d !! item_id); [done|]. by intros [= <-].
Qed.

(** The loop over the inputs, when it gets through: the signatures come in
    the order of the inputs, numbered from [i]; the rows that were there
    stay; and every input has its row. *)
Lemma queue_items_in_order (batch_id skill_name : string) (inputs : list pyval) :
  forall (i : nat) (queued queued' : list Signature) (d d' : DB),
    queue_items batch_id skill_name i inputs queued d = (inl queued', d') ->
    queued' = queued ++
      imap (fun k input_data =>
              process_single_item_s batch_id
                (batch_id +:+ ":" +:+ pretty (i + k)%nat) skill_name input_data)
        inputs
    /\ (forall key item,
           batch_items d !! key = Some item -> batch_items d' !! key = Some item)
    /\ (forall k input_data,
           inputs !! k = Some input_data ->
           batch_items d' !! (batch_id +:+ ":" +:+ pretty (i + k)%nat)
           = Some (BatchItem.make (batch_id +:+ ":" +:+ pretty (i + k)%nat)
                     batch_id input_data PyNone None None None 0 0 None)).
Proof.
  induction inputs as [|input_data rest IH]; intros i queued queued' d d'.
  - cbn. intros [= <- <-]. rewrite app_nil_r. split; [done|]. split; [done|].
    intros k x Hk. by rewrite lookup_nil in Hk.
  - cbn [queue_items].
    destruct (create_batch_item _ _ _ d) as [d1|e] eqn:Hcreate; [|done].
    apply create_batch_item_row in Hcreate as [Hfresh Hd1].
    intros Hq. destruct (IH _ _ _ _ _ Hq) as (-> & Hkeep & Hrows).
    assert (Hkeep1 : forall key item,
               batch_items d !! key = Some item -> batch_items d1 !! key = Some item).
    { intros key item Hitem. rewrite Hd1, lookup_insert_ne; [done|].
      intros <-. congruence. }
    split; [|split].
    + rewrite <- app_assoc. f_equal. cbn [app imap].
      rewrite Nat.add_0_r. f_equal.
      apply imap_ext. intros k x _. cbn. by rewrite Nat.add_succ_r.
    + intros key item Hitem. by apply Hkeep, Hkeep1.
    + intros [|k] x Hk.
      * cbn in Hk. injection Hk as <-. rewrite Nat.add_0_r.
        apply Hkeep. by rewrite Hd1, lookup_insert_eq.
      * cbn in Hk. rewrite Nat.add_succ_r. by apply (Hrows k x).
Qed.

Lemma group_apply_async_imap (batch_id skill_name : string) (inputs : list pyval)
    (b : list Message) :
  group_apply_async
    (imap (fun k input_data =>
             process_single_item_s batch_id
               (batch_id +:+ ":" +:+ pretty (0 + k)%nat) skill_name input_data)
       inputs) b
  = b ++ imap (fun k input_data =>
                 fresh_message None
                   (process_single_item_s batch_id
                      (batch_id +:+ ":" +:+ pretty k) skill_name input_data))
          inputs.
Proof.
  rewrite group_apply_async_app. f_equal.
  change (map (fresh_message None) ?l) with (fresh_message None <$> l).
  rewrite fmap_imap. by apply imap_ext.
Qed.

(** X10: when the batch task returns, the batch id was new; the job row
    has been written with the number of inputs as total; every input has
    its item row under the id [batch_id:index]; and the broker has taken,
    behind what it held, one item task per input in the order of the
    inputs and then one completion check if a callback target that is not
    empty was given, and nothing else. *)
Theorem batch_task_queues_in_order (self : Message)
    (batch_id skill_name : string) (inputs : list pyval)
    (webhook_url : option string) (s s' : System) (v : pyval) :
  process_skill_batch SKILL_REGISTRY self batch_id skill_name inputs webhook_url s
  = (Returned v, s') ->
  batch_jobs (db s) !! batch_id = None
  /\ batch_jobs (db s')
     = <[batch_id := BatchJob.make batch_id skill_name (value PROCESSING)
                       (Z.of_nat (length inputs)) 0 0]> (batch_jobs (db s))
  /\ (forall k input_data,
        inputs !! k = Some input_data ->
        batch_items (db s') !! (batch_id +:+ ":" +:+ pretty k)
        = Some (BatchItem.make (batch_id +:+ ":" +:+ pretty k) batch_id
                  input_data PyNone None None None 0 0 None))
  /\ broker s' = broker s ++ batch_messages_of batch_id skill_name inputs webhook_url
  /\ world s' = world s
  /\ v = PyDict [("batch_id", PyStr batch_id);
                 ("items_queued", PyInt (Z.of_nat (length inputs)))].
Proof.
  unfold process_skill_batch.
  destruct (registry.get_skill _ _) as [skill|]; [|done].
  unfold create_batch_job.
  destruct (batch_jobs (db s) !! batch_id) eqn:Hfresh; [done|].
  destruct (queue_items _ _ _ _ _ _) as [[queued|e] d'] eqn:Hq; [|done].
  intros [= <- <-]. cbn [db broker world].
  pose proof (queue_items_jobs _ _ _ _ _ _ _ _ Hq) as Hjobs.
  destruct (queue_items_in_order _ _ _ _ _ _ _ _ Hq) as (-> & _ & Hrows).
  cbn [batch_jobs app] in *.
  split; [done|]. split; [done|]. split; [exact Hrows|]. split; [|done].
  unfold batch_messages_of. rewrite group_apply_async_imap.
  destruct webhook_url as [url|]; [|by rewrite app_nil_r].
  cbn [truthy]. destruct (String.eqb url EmptyString); cbn [negb].
  - by rewrite app_nil_r.
  - unfold apply_async. by rewrite <- app_assoc.
Qed.

(** X11: a batch task that raises has sent no message and done nothing
    to the outside world; and it raises, leaving the whole state as it
    was, when the batch id already has a row or the skill is not
    registered. *)
Theorem batch_task_failure_sends_nothing (self : Message)
    (batch_id skill_name : string) (inputs : list pyval)
    (webhook_url : option string) (s : System) :
  let out := process_skill_batch SKILL_REGISTRY self batch_id skill_name
               inputs webhook_url s in
  (forall exc, out.1 = Raised exc ->
     broker out.2 = broker s /\ world out.2 = world s)
  /\ (is_Some (batch_jobs (db s) !! batch_id) \/
      SKILL_REGISTRY !! skill_name = None ->
      exists exc, out = (Raised exc, s)).
Proof.
  cbn zeta. unfold process_skill_batch, registry.get_skill. split.
  - destruct (SKILL_REGISTRY !! skill_name); [|done].
    destruct (create_batch_job _ _ _ _); [|done].
    by destruct (queue_items _ _ _ _ _ _) as [[queued|e] d'].
  - intros [[j Hj]| ->]; [|by eauto].
    destruct (SKILL_REGISTRY !! skill_name); [|by eauto].
    unfold create_batch_job. rewrite Hj. by eauto.
Qed.

End batch_task.

(** ** More on the running system *)

Section running.
Context `{Runtime} (SKILL_REGISTRY : gmap string BaseSkill).
Import models celery connection tasks system.

(** X12: the only statuses a batch ever has are processing and
    completed: no step of the system writes queued or failed, also not
    when every item of the batch has failed. *)
Theorem status_processing_or_completed (s : System) (b : string) (j : BatchJob.t) :
  reachable SKILL_REGISTRY s ->
  batch_jobs (db s) !! b = Some j ->
  BatchJob.status j = value PROCESSING \/ BatchJob.status j = value COMPLETED.
Proof.
  intros Hs Hj.
  pose proof (reachable_invariant SKILL_REGISTRY s Hs b) as Hb.
  unfold batch_ok in Hb. rewrite Hj in Hb.
  destruct Hb as (_ & _ & _ & [[Hp _]|[Hc _]] & _); auto.
Qed.

Lemma step_row_grows (s s' : System) (b : string) (j : BatchJob.t) :
  step SKILL_REGISTRY s s' ->
  batch_jobs (db s) !! b = Some j ->
  exists j',
    batch_jobs (db s') !! b = Some j' /\
    BatchJob.id j' = BatchJob.id j /\
    BatchJob.skill_name j' = BatchJob.skill_name j /\
    BatchJob.total_items j' = BatchJob.total_items j /\
    BatchJob.completed_items j <= BatchJob.completed_items j' /\
    BatchJob.failed_items j <= BatchJob.failed_items j'.
Proof.
  intros Hstep Hj.
  destruct (step_row SKILL_REGISTRY s s' b Hstep)
    as [Hsame | [Hnew | (_ & success & Hupd)]].
  - exists j. rewrite Hsame. repeat split; [done|lia..].
  - congruence.
  - rewrite Hj in Hupd. cbn in Hupd. eexists. split; [exact Hupd|].
    unfold checked, counted.
    destruct success; cbn; destruct (_ <=? _); cbn; repeat split; lia.
Qed.

(** X13: a job row is never deleted, and its id, skill and total never
    change; over any number of steps each of its two counters can only
    grow. *)
Theorem rows_only_grow (s s' : System) (b : string) (j : BatchJob.t) :
  steps SKILL_REGISTRY s s' ->
  batch_jobs (db s) !! b = Some j ->
  exists j',
    batch_jobs (db s') !! b = Some j' /\
    BatchJob.id j' = BatchJob.id j /\
    BatchJob.skill_name j' = BatchJob.skill_name j /\
    BatchJob.total_items j' = BatchJob.total_items j /\
    BatchJob.completed_items j <= BatchJob.completed_items j' /\
    BatchJob.failed_items j <= BatchJob.failed_items j'.
Proof.
  intros Hsteps. revert j.
  induction Hsteps as [s|s s1 s' Hstep _ IH]; intros j Hj.
  - exists j. repeat split; [done|lia..].
  - destruct (step_row_grows s s1 b j Hstep Hj)
      as (j1 & Hj1 & Hid & Hsk & Htot & Hc & Hf).
    destruct (IH j1 Hj1) as (j' & Hj' & Hid' & Hsk' & Htot' & Hc' & Hf').
    exists j'. repeat split; [done|congruence..|lia|lia].
Qed.

(** *** Retry counts *)

Lemma fresh_message_bounded (countdown : option Z) (sig : Signature) :
  retries_bounded (fresh_message countdown sig).
Proof. unfold retries_bounded, process_single_item_max_retries. cbn. lia. Qed.

Lemma apply_async_bounded (sig : Signature) (countdown : option Z)
    (b : list Message) :
  Forall retries_bounded b -> Forall retries_bounded (apply_async sig countdown b).
Proof.
  intros Hb. unfold apply_async. apply Forall_app. split; [done|].
  constructor; [apply fresh_message_bounded|constructor].
Qed.

Lemma group_apply_async_bounded (queued : list Signature) (b : list Message) :
  Forall retries_bounded b -> Forall retries_bounded (group_apply_async queued b).
Proof.
  intros Hb. rewrite group_apply_async_app. apply Forall_app. split; [done|].
  apply Forall_map, Forall_forall. intros sig _. apply fresh_message_bounded.
Qed.

Lemma retry_bounded (self : Message) (exc : string) (countdown : Z)
    (b : list Message) :
  retries_bounded self -> Forall retries_bounded b ->
  Forall retries_bounded
    (retry process_single_item_max_retries self exc countdown b).2.
Proof.
  intros Hself Hb. unfold retry, retries_bounded in *.
  destruct (Z.ltb_spec process_single_item_max_retries (msg_retries self + 1));
    cbn [snd]; [done|].
  apply Forall_app. split; [done|]. constructor; [cbn; lia|constructor].
Qed.

Lemma run_task_bounded (m : Message) (s : System) :
  retries_bounded m -> Forall retries_bounded (broker s) ->
  Forall retries_bounded (broker (run_task SKILL_REGISTRY m s).2).
Proof.
  intros Hm Hb. unfold run_task.
  destruct (msg_sig m) as [batch_id skill_name inputs webhook_url
                          |batch_id item_id skill_name input_data
                          |batch_id webhook_url].
  - unfold process_skill_batch.
    destruct (registry.get_skill _ _) as [skill|]; [|done].
    destruct (create_batch_job _ _ _ _) as [d|e]; [|done].
    destruct (queue_items _ _ _ _ _ _) as [[queued|e] d']; [|done].
    cbn [snd broker].
    destruct webhook_url as [url|]; [destruct (truthy (PyStr url))|];
      auto using apply_async_bounded, group_apply_async_bounded.
  - unfold process_single_item.
    destruct (registry.get_skill _ _) as [skill|]; [|done].
    destruct (run skill input_data (world s)) as [result w].
    destruct (_ && _).
    { pose proof (retry_bounded m "Rate limited" (30 * (msg_retries m + 1))
                    (broker s) Hm Hb) as Hr.
      by destruct (retry _ _ _ _ _). }
    destruct (_ && _); [|done].
    pose proof (retry_bounded m (default "None" (SkillResult.error_message result))
                  10 (broker s) Hm Hb) as Hr.
    by destruct (retry _ _ _ _ _).
  - unfold notify_completion.
    destruct (get_batch_status _ _) as [status|];
      [destruct (String.eqb _ _)|]; cbn [snd broker];
      auto using apply_async_bounded.
Qed.

Lemma step_keeps_retries_bounded (s s' : System) :
  Forall retries_bounded (broker s) -> step SKILL_REGISTRY s s' ->
  Forall retries_bounded (broker s').
Proof.
  intros Hb Hstep.
  destruct Hstep as [submission s|skill_name rows s|m before after s Hbroker|e s].
  - unfold main.submit_batch. destruct (negb _); [done|].
    unfold main.queue_batch. destruct (uuid4 _). cbn.
    by apply apply_async_bounded.
  - unfold main.submit_csv_batch.
    destruct (negb _); [done|]. destruct (negb _); [done|].
    unfold main.queue_batch. destruct (uuid4 _). cbn.
    by apply apply_async_bounded.
  - rewrite Hbroker in Hb. apply Forall_app in Hb as [Hbefore Hafter].
    apply Forall_cons in Hafter as [Hm Hafter].
    apply run_task_bounded; [done|]. cbn. by apply Forall_app.
  - done.
Qed.

Lemma reachable_retries_bounded (s : System) :
  reachable SKILL_REGISTRY s -> Forall retries_bounded (broker s).
Proof.
  induction 1 as [e|s s' _ IH Hstep]; [constructor|].
  eauto using step_keeps_retries_bounded.
Qed.

(** X14: no message on the broker ever carries a retry count below 0
    or above 5, so the task of an item runs six times at most. *)
Theorem retries_never_exceed_cap (s : System) (m : Message) :
  reachable SKILL_REGISTRY s ->
  m ∈ broker s ->
  0 <= msg_retries m <= 5.
Proof.
  intros Hs Hm.
  pose proof (reachable_retries_bounded s Hs) as Hall.
  rewrite Forall_forall in Hall. exact (Hall m Hm).
Qed.

Lemma count_zero_elem {A} (P : A -> bool) (l : list A) (x : A) :
  count P l = 0 -> x ∈ l -> P x = false.
Proof.
  intros Hzero Hx. induction Hx as [x l|x y l _ IH]; cbn in Hzero.
  - pose proof (count_nonneg P l). destruct (P x); [lia|done].
  - pose proof (count_nonneg P l). apply IH. destruct (P y); lia.
Qed.

(** X15: an item task or a completion check is only ever on the broker
    for a batch that has its job row, so neither the update of an item nor
    a check ever meets a batch that is not there. *)
Theorem messages_have_rows (s : System) (m : Message) :
  reachable SKILL_REGISTRY s ->
  m ∈ broker s ->
  match msg_sig m with
  | process_single_item_s batch_id _ _ _ => is_Some (batch_jobs (db s) !! batch_id)
  | notify_completion_s batch_id _ => is_Some (batch_jobs (db s) !! batch_id)
  | process_skill_batch_s _ _ _ _ => True
  end.
Proof.
  intros Hs Hm.
  pose proof (reachable_invariant SKILL_REGISTRY s Hs) as Hinv.
  destruct (msg_sig m) as [batch_id skill_name inputs webhook_url
                          |batch_id item_id skill_name input_data
                          |batch_id webhook_url] eqn:Hsig; [done|..];
    specialize (Hinv batch_id); unfold batch_ok in Hinv;
    (destruct (batch_jobs (db s) !! batch_id) as [j|]; [by eexists|]);
    destruct Hinv as (Hitems & Hchecks & _); exfalso.
  - pose proof (count_zero_elem _ _ _ Hitems Hm) as Hno.
    unfold is_item_of in Hno. rewrite Hsig in Hno.
    by rewrite bool_decide_eq_true_2 in Hno.
  - pose proof (count_zero_elem _ _ _ Hchecks Hm) as Hno.
    unfold is_check_of in Hno. rewrite Hsig in Hno.
    by rewrite bool_decide_eq_true_2 in Hno.
Qed.

End running.

(** ** What a notification and a status query report *)

Section reports.
Context `{Runtime} (SKILL_REGISTRY : gmap string BaseSkill).
Import models celery connection tasks system.

(** [run] adds calls of [execute] to the trace and nothing else. *)
Lemma run_trace (skill : BaseSkill) (input_data : pyval) (w : World) :
  exists new,
    trace (run skill input_data w).2 = trace w ++ new /\
    forall d, Forall (delivery_matches d) new.
Proof.
  unfold run.
  destruct (validate_input skill input_data) as [validated|detail].
  - unfold call_execute. destruct (execute skill validated (ext w)) as [r e].
    exists [EvExecute (name skill) validated]. split.
    + destruct (_ && _); [destruct (validate_output _ _)|]; reflexivity.
    + intros d. by repeat constructor.
  - exists []. split; [by rewrite app_nil_r|]. intros d. constructor.
Qed.

(** The events one step adds to the trace: every delivery among them
    reports a completed row of the database after the step. *)
Lemma step_new_events (s s' : System) :
  step SKILL_REGISTRY s s' ->
  exists new,
    trace (world s') = trace (world s) ++ new /\
    Forall (delivery_matches (db s')) new.
Proof.
  intros Hstep.
  destruct Hstep as [submission s|skill_name rows s|m before after s Hbroker|e s].
  - exists []. rewrite app_nil_r. split; [|constructor].
    unfold main.submit_batch. destruct (negb _); [done|].
    unfold main.queue_batch. by destruct (uuid4 _).
  - exists []. rewrite app_nil_r. split; [|constructor].
    unfold main.submit_csv_batch.
    destruct (negb _); [done|]. destruct (negb _); [done|].
    unfold main.queue_batch. by destruct (uuid4 _).
  - unfold run_task.
    destruct (msg_sig m) as [batch_id skill_name inputs webhook_url
                            |batch_id item_id skill_name input_data
                            |batch_id webhook_url].
    + exists []. rewrite app_nil_r. split; [|constructor].
      unfold process_skill_batch.
      destruct (registry.get_skill _ _) as [skill|]; [|done].
      destruct (create_batch_job _ _ _ _) as [d|exc]; [|done].
      by destruct (queue_items _ _ _ _ _ _) as [[queued|exc] d'].
    + destruct (process_single_item_outcome SKILL_REGISTRY m batch_id item_id
                  skill_name input_data
                  {| world := world s; db := db s; broker := before ++ after |})
        as [-> | (skill & result & w & Hrun & Hout)].
      { exists []. rewrite app_nil_r. split; [done|constructor]. }
      cbn [world] in Hrun.
      destruct (run_trace skill input_data (world s)) as (new & Htrace & Hnew).
      rewrite Hrun in Htrace. cbn [snd] in Htrace.
      exists new.
      destruct Hout as [-> | [(countdown & ->) | ->]]; cbn [world db];
        split; auto.
    + unfold notify_completion, get_batch_status. cbn [db world broker].
      destruct (batch_jobs (db s) !! batch_id) as [j|] eqn:Hj;
        [|exists []; rewrite app_nil_r; split; [done|constructor]].
      cbn [StatusDict.status].
      destruct (String.eqb (BatchJob.status j) "completed") eqn:Hdone;
        [|exists []; rewrite app_nil_r; split; [done|constructor]].
      apply String.eqb_eq in Hdone. cbn [snd world db].
      destruct (send_webhook_trace webhook_url
                  (webhook_payload batch_id
                     (StatusDict.make (BatchJob.status j) (BatchJob.total_items j)
                        (BatchJob.completed_items j) (BatchJob.failed_items j)))
                  (world s)) as (exc & e & _ & ->).
      eexists. split; [reflexivity|].
      constructor; [by exists batch_id, j|].
      destruct exc; by repeat constructor.
  - exists []. rewrite app_nil_r. split; [done|constructor].
Qed.

(** A delivery that reported a completed row still does after a step. *)
Lemma delivery_matches_step (s s' : System) (ev : Event) :
  invariant s -> step SKILL_REGISTRY s s' ->
  delivery_matches (db s) ev -> delivery_matches (db s') ev.
Proof.
  intros Hinv Hstep. destruct ev as [| url payload |]; [done| |done].
  intros (b & j & Hj & Hdone & Hpayload). exists b, j. split; [|done].
  by eapply completed_row_step.
Qed.

Lemma reachable_deliveries_match (s : System) :
  reachable SKILL_REGISTRY s ->
  Forall (delivery_matches (db s)) (trace (world s)).
Proof.
  induction 1 as [e|s s' Hs IH Hstep]; [constructor|].
  destruct (step_new_events s s' Hstep) as (new & -> & Hnew).
  apply Forall_app. split; [|done].
  eapply Forall_impl; [exact IH|]. intros ev.
  apply delivery_matches_step; eauto using reachable_invariant.
Qed.

(** X16: every notification that has been sent reports the row of its
    batch as it stands now and for good: the row is completed, the three
    counts of the payload are those of the row, and completed and failed
    add up to the total. *)
Theorem notifications_report_final_counts (s : System) (url : string)
    (payload : pyval) :
  reachable SKILL_REGISTRY s ->
  EvPost url payload ∈ trace (world s) ->
  exists (b : string) (j : BatchJob.t),
    batch_jobs (db s) !! b = Some j /\
    BatchJob.status j = value COMPLETED /\
    BatchJob.completed_items j + BatchJob.failed_items j = BatchJob.total_items j /\
    payload = PyDict [("batch_id", PyStr b);
                      ("status", PyStr "completed");
                      ("total", PyInt (BatchJob.total_items j));
                      ("completed", PyInt (BatchJob.completed_items j));
                      ("failed", PyInt (BatchJob.failed_items j))].
Proof.
  intros Hs Hev.
  pose proof (reachable_deliveries_match s Hs) as Hall.
  rewrite Forall_forall in Hall.
  destruct (Hall _ Hev) as (b & j & Hj & Hdone & ->).
  exists b, j. split; [done|]. split; [done|]. split; [|done].
  by apply (completed_iff s b j (reachable_invariant SKILL_REGISTRY s Hs) Hj).
Qed.

(** X17: the status endpoint answers 404 exactly for a batch id without
    row.  Otherwise it reports the counters of the row, which never add up
    to more than the total; it lists results exactly when the status is
    completed, which is exactly when at least one item is counted and
    the counters add up to the total; and the results are all item rows of
    that batch. *)
Theorem status_endpoint_consistent (s : System) (batch_id : string) :
  reachable SKILL_REGISTRY s ->
  match main.get_batch_status batch_id (db s) with
  | inr exc =>
      main.HTTPException.status_code exc = 404 /\
      batch_jobs (db s) !! batch_id = None
  | inl response =>
      is_Some (batch_jobs (db s) !! batch_id) /\
      main.StatusResponse.completed response + main.StatusResponse.failed response
        <= main.StatusResponse.total response /\
      (main.StatusResponse.status response = "completed" <->
         main.StatusResponse.completed response + main.StatusResponse.failed response
         = main.StatusResponse.total response /\
         0 < main.StatusResponse.total response) /\
      main.StatusResponse.results response
      = (if String.eqb (main.StatusResponse.status response) "completed"
         then Some (get_batch_results batch_id (db s)) else None)
  end.
Proof.
  intros Hs. unfold main.get_batch_status, get_batch_status.
  destruct (batch_jobs (db s) !! batch_id) as [j|] eqn:Hj; [|done].
  cbn.
  pose proof (reachable_invariant SKILL_REGISTRY s Hs) as Hinv.
  pose proof (completed_iff s batch_id j Hinv Hj) as Hiff.
  specialize (Hinv batch_id). unfold batch_ok in Hinv. rewrite Hj in Hinv.
  destruct Hinv as (Hcj & Hfj & Hroom & _).
  pose proof (count_nonneg (is_item_of batch_id) (broker s)).
  unfold pending_items in Hroom.
  split; [by eexists|]. split; [lia|]. split; [|done].
  change "completed" with (value COMPLETED). rewrite Hiff. split.
  - intros [Hfull Hpos]. split; [done|lia].
  - intros [Hfull Hpos]. split; [done|lia].
Qed.

(** X18: neither endpoint for submissions writes to the database or to
    the trace.  A submission that is turned away leaves the whole state as
    it was; one that is taken puts exactly one message on the broker, the
    batch task with the inputs as they came and with the batch id that is
    returned, and answers with the number of inputs. *)
Theorem submission_queues_one_task (submission : main.BatchSubmission.t) (s : System) :
  let out := main.submit_batch SKILL_REGISTRY submission s in
  db out.2 = db s /\ trace (world out.2) = trace (world s) /\
  match out.1 with
  | inr exc =>
      out.2 = s /\ main.HTTPException.status_code exc = 400 /\
      SKILL_REGISTRY !! main.BatchSubmission.skill_name submission = None
  | inl response =>
      is_Some (SKILL_REGISTRY !! main.BatchSubmission.skill_name submission) /\
      main.BatchResponse.item_count response
      = Z.of_nat (length (main.BatchSubmission.inputs submission)) /\
      main.BatchResponse.status response = "queued" /\
      broker out.2
      = broker s ++
        [fresh_message None
           (process_skill_batch_s (main.BatchResponse.batch_id response)
              (main.BatchSubmission.skill_name submission)
              (main.BatchSubmission.inputs submission)
              (main.BatchSubmission.webhook_url submission))]
  end.
Proof.
  cbn zeta. unfold main.submit_batch, registry.registered.
  case_bool_decide as Hreg; cbn [negb].
  - unfold main.queue_batch. destruct (uuid4 _) as [batch_id e]. cbn.
    repeat split; done.
  - cbn. repeat split; try done.
    destruct (SKILL_REGISTRY !! _) eqn:Hskill; [|done].
    exfalso. apply Hreg. by eexists.
Qed.

End reports.

(** ** The URL summarizer *)

Section prefixes.
Import pystr.

Lemma prefix_chars_length (s : string) :
  forall n : N, (String.length (prefix_chars n s) <= N.to_nat n)%nat.
Proof.
  induction s as [|c s IH]; intros n; cbn; [lia|].
  destruct (N.eqb_spec n 0); cbn; [lia|].
  specialize (IH (N.pred n)). lia.
Qed.

Lemma prefix_chars_short (s : string) :
  forall n : N, (String.length s <= N.to_nat n)%nat -> prefix_chars n s = s.
Proof.
  induction s as [|c s IH]; intros n Hn; cbn in *; [reflexivity|].
  destruct (N.eqb_spec n 0); [lia|].
  rewrite IH; [reflexivity|lia].
Qed.

Lemma prefix_chars_prefix (s : string) :
  forall n : N, exists rest, s = prefix_chars n s +:+ rest.
Proof.
  induction s as [|c s IH]; intros n; cbn.
  - by exists EmptyString.
  - destruct (N.eqb_spec n 0); [by eexists|].
    destruct (IH (N.pred n)) as [rest Hrest].
    exists rest. rewrite str_app_cons. by rewrite <- Hrest.
Qed.

End prefixes.

Section summarizer.
Context `{url_summarizer.Web}.
Import models celery connection tasks url_summarizer base.

Lemma run_success_keeps_output (self : BaseSkill) (raw_input : pyval)
    (validated : Model) (r : SkillResult.t) (e : Ext) (w : World) :
  validate_input self raw_input = inl validated ->
  execute self validated (ext w) = (r, e) ->
  SkillResult.success (run self raw_input w).1 = true ->
  SkillResult.success r = true /\
  SkillResult.output (run self raw_input w).1 = SkillResult.output r.
Proof.
  intros Hin Hex. rewrite (run_valid_input _ _ _ _ _ _ Hin Hex).
  destruct r as [success output error_type error_message tokens latency]. cbn.
  destruct success; cbn; [|done].
  destruct (truthy output); cbn; [|done].
  by destruct (validate_output self output).
Qed.

(** X19: when the page cannot be fetched, the summarizer does not ask
    the provider: the outside world is left as the fetch left it, and the
    outcome is a failure without output, classified as a timeout for a
    timeout and as source not found for any other HTTP error. *)
Theorem fetch_failure_skips_provider (validated_input : Model) (e e' : Ext)
    (reply : FetchReply) :
  httpx_get (str_url validated_input) e = (reply, e') ->
  (forall text, reply <> Fetched text) ->
  exists message,
    url_summarizer.execute validated_input e
    = (SkillResult.make false PyNone
         (Some match reply with
               | TimeoutException => TIMEOUT
               | _ => SOURCE_NOT_FOUND
               end)
         (Some message) 0 0, e').
Proof.
  intros Hget Hfail. unfold url_summarizer.execute. rewrite Hget.
  destruct reply as [text| |msg]; [by destruct (Hfail text)|by eexists..].
Qed.

(** X20: a page that cannot be fetched costs its item one run and no
    more: the item task stores the failure at once, under the
    classification of the fetch error, sends nothing again, and the batch
    counts one more failed item. *)
Theorem fetch_failure_recorded_at_once (self : Message)
    (batch_id item_id : string) (input_data : pyval) (s : System)
    (validated_input : Model) (e' : Ext) (reply : FetchReply) (j : BatchJob.t) :
  validate_input url_summarizer input_data = inl validated_input ->
  httpx_get (str_url validated_input) (ext (world s)) = (reply, e') ->
  (forall text, reply <> Fetched text) ->
  batch_jobs (db s) !! batch_id = Some j ->
  let out := process_single_item SKILL_REGISTRY self batch_id item_id
               "url_summarizer" input_data s in
  (exists v, out.1 = Returned v)
  /\ broker out.2 = broker s
  /\ ext (world out.2) = e'
  /\ (forall item,
        batch_items (db s) !! item_id = Some item ->
        exists item',
          batch_items (db out.2) !! item_id = Some item' /\
          BatchItem.success item' = Some false /\
          BatchItem.error_type item'
          = Some match reply with
                 | TimeoutException => "timeout"
                 | _ => "source_not_found"
                 end)
  /\ exists j',
       batch_jobs (db out.2) !! batch_id = Some j' /\
       BatchJob.completed_items j' = BatchJob.completed_items j /\
       BatchJob.failed_items j' = BatchJob.failed_items j + 1.
Proof.
  intros Hin Hget Hfail Hj out.
  destruct (fetch_failure_skips_provider validated_input (ext (world s)) e' reply
              Hget Hfail) as [message Hexec].
  assert (Hskill : registry.get_skill SKILL_REGISTRY "url_summarizer"
                   = Some url_summarizer)
    by (unfold registry.get_skill, SKILL_REGISTRY; apply lookup_singleton_eq).
  destruct (run url_summarizer input_data (world s)) as [result w] eqn:Hrun.
  pose proof (run_valid_input url_summarizer input_data validated_input _ _
                (world s) Hin Hexec) as Hrun'.
  cbn in Hrun'. rewrite Hrun in Hrun'. injection Hrun' as -> ->.
  subst out.
  rewrite (process_single_item_cases SKILL_REGISTRY self batch_id item_id
             "url_summarizer" input_data s url_summarizer _ _ Hskill Hrun).
  assert (Hclass : classification
                     (SkillResult.set_latency_ms
                        (SkillResult.make false PyNone
                           (Some match reply with
                                 | TimeoutException => TIMEOUT
                                 | _ => SOURCE_NOT_FOUND
                                 end) (Some message) 0 0)
                        (measured (world s) e'))
                   = Some match reply with
                          | TimeoutException => TIMEOUT
                          | _ => SOURCE_NOT_FOUND
                          end) by reflexivity.
  assert (Hout : forall (A : Type) (x y z : A),
             match match reply with
                   | TimeoutException => TIMEOUT
                   | _ => SOURCE_NOT_FOUND
                   end with
             | RATE_LIMIT => x | API_ERROR => y | _ => z end = z)
    by (intros; by destruct reply).
  rewrite Hclass, Hout. cbn [fst snd broker world db ext].
  split; [by eexists|]. split; [done|]. split; [done|]. split.
  - intros item Hitem. unfold stored, update_batch_item. cbn [batch_items].
    rewrite lookup_alter_eq, Hitem. cbn. eexists. split; [reflexivity|].
    cbn. split; [done|]. by destruct reply.
  - unfold stored. rewrite update_batch_item_job, Hj. cbn.
    eexists. split; [reflexivity|].
    unfold checked, counted. cbn. destruct (_ <=? _); cbn; auto.
Qed.

(** X21: the page text that goes into the prompt is the beginning of
    the page, at most 50000 characters of it, and all of it when the page
    is not longer; the provider is then asked once, with the prompt built
    from the URL and that text, the skill's system prompt, and the default
    model, token limit and temperature 0. *)
Theorem page_text_truncated (validated_input : Model) (e e' : Ext) (text : string) :
  httpx_get (str_url validated_input) e = (Fetched text, e') ->
  let content := pystr.prefix_chars content_limit text in
  (String.length content <= N.to_nat 50000)%nat
  /\ (exists rest, text = content +:+ rest)
  /\ ((String.length text <= N.to_nat 50000)%nat -> content = text)
  /\ url_summarizer.execute validated_input e
     = claude_client.call_claude_structured
         (prompt_for (str_url validated_input) content)
         UrlSummarizerOutput (Some url_summarizer.system_prompt)
         "claude-sonnet-4-20250514" 4096 0%Q e'.
Proof.
  intros Hget content. subst content.
  split; [exact (prefix_chars_length text content_limit)|].
  split; [apply prefix_chars_prefix|].
  split; [intros Hshort; apply prefix_chars_short; exact Hshort|].
  unfold url_summarizer.execute. by rewrite Hget.
Qed.

(** X22: for the summarizer the outcome of [run] is a success only with
    an output that is there and has been through the output schema: it is
    the dump of a value that [UrlSummarizerOutput] accepted. *)
Theorem summarizer_success_validated (raw_input : pyval) (w : World) :
  let r := (run url_summarizer raw_input w).1 in
  SkillResult.success r = true ->
  exists parsed validated,
    model_validate UrlSummarizerOutput parsed = inl validated /\
    SkillResult.output r = PyDict (model_dump validated).
Proof.
  cbn zeta.
  destruct (validate_input url_summarizer raw_input) as [validated_input|detail] eqn:Hin;
    [|unfold run; by rewrite Hin].
  destruct (execute url_summarizer validated_input (ext w)) as [r e] eqn:Hex.
  intros Hsuccess.
  destruct (run_success_keeps_output _ _ _ _ _ _ Hin Hex Hsuccess) as [Hr ->].
  cbn in Hex. unfold url_summarizer.execute in Hex.
  destruct (httpx_get _ _) as [[text| |msg] e1];
    [|injection Hex as <- _; discriminate..].
  pose proof (call_claude_structured_success
                (prompt_for (str_url validated_input)
                   (pystr.prefix_chars content_limit text))
                UrlSummarizerOutput (Some url_summarizer.system_prompt)
                default_model default_max_tokens default_temperature e1) as Hclient.
  cbn zeta in Hclient. rewrite Hex in Hclient. exact (Hclient Hr).
Qed.

End summarizer.

(** ** The further properties on the example installation *)

Section further_at_work.
Import models connection celery tasks system.
#[local] Existing Instance example.runtime.
#[local] Existing Instance example.web.

Lemma work_steps (s : System) :
  steps example.SKILL_REGISTRY s (example.work s).
Proof.
  unfold example.work.
  destruct (broker s) as [|m rest] eqn:Hbroker; [apply rtc_refl|].
  apply rtc_once. exact (step_task example.SKILL_REGISTRY m [] rest s Hbroker).
Qed.

Lemma queued_reachable : reachable example.SKILL_REGISTRY example.queued.
Proof. apply work_reachable, submitted_reachable. Qed.

Lemma thrice_limited_reachable :
  reachable example.SKILL_REGISTRY example.thrice_limited.
Proof. do 4 apply work_reachable. apply submitted_reachable. Qed.

Lemma fenced_block_unwrapped_witness :
  claude_client.text_to_parse
    (pystr.fence +:+ "json" +:+ String pystr.newline
       ("{}" +:+ String pystr.newline pystr.fence))
  = "{}".
Proof. exact (fenced_block_unwrapped "json" "{}" eq_refl). Defined.

Lemma one_line_fence_parses_nothing_witness :
  claude_client.text_to_parse example.one_line_answer = EmptyString.
Proof.
  exact (one_line_fence_parses_nothing example.one_line_answer eq_refl eq_refl).
Defined.

Lemma run_wraps_execute_witness :
  let out := run example.titled_skill example.good_input example.w0 in
  out.2 = {| ext := (1%nat, []);
             trace := [EvExecute "titled" example.good_input] |}
  /\ SkillResult.output out.1 = PyDict [("title", PyStr "t")]
  /\ SkillResult.tokens_used out.1 = 7
  /\ SkillResult.latency_ms out.1 = 1000.
Proof.
  destruct (run_wraps_execute example.titled_skill example.good_input
              example.good_input
              (SkillResult.make true (PyDict [("title", PyStr "t")]) None None 7 0)
              (1%nat, []) example.w0 eq_refl eq_refl)
    as (Hworld & Houtput & Htokens & Hlatency & _).
  auto.
Defined.

Lemma run_failures_classified_witness :
  is_Some (SkillResult.error_type
             (run example.untitled_skill example.good_input example.w0).1).
Proof.
  apply (run_failures_classified example.untitled_skill example.good_input example.w0).
  - intros validated e Hfailed. discriminate Hfailed.
  - reflexivity.
Defined.

Lemma stored_outcome_in_results_witness :
  ResultDict.make "batch-0:0" example.good_input PyNone (Some false)
    (Some "timeout") (Some "too slow") 0 12
  ∈ get_batch_results "batch-0"
      (update_batch_item "batch-0" "batch-0:0" false PyNone (Some "timeout")
         (Some "too slow") 0 12 0%Q (db example.limited_queued)).
Proof.
  exact (stored_outcome_in_results "batch-0" "batch-0:0" false PyNone
           (Some "timeout") (Some "too slow") 0 12 0%Q (db example.limited_queued)
           (BatchItem.make "batch-0:0" "batch-0" example.good_input PyNone
              None None None 0 0 None)
           ltac:(vm_compute; reflexivity) eq_refl).
Defined.

Lemma update_counts_without_item_row_witness :
  let d' := update_batch_item "batch-0" "no-such-item" false PyNone
              (Some "timeout") None 0 0 0%Q (db example.limited_queued) in
  batch_items d' = batch_items (db example.limited_queued) /\
  exists j', batch_jobs d' !! "batch-0" = Some j' /\
    BatchJob.completed_items j' + BatchJob.failed_items j' = 0 + 0 + 1 /\
    (1 <= 0 + 0 + 1 -> BatchJob.status j' = "completed").
Proof.
  exact (update_counts_without_item_row "batch-0" "no-such-item" false PyNone
           (Some "timeout") None 0 0 0%Q (db example.limited_queued)
           (BatchJob.make "batch-0" "limited" "processing" 1 0 0)
           ltac:(vm_compute; reflexivity) ltac:(vm_compute; reflexivity)).
Defined.

Lemma update_unknown_batch_writes_item_witness :
  let d' := update_batch_item "no-such-batch" "batch-0:0" true
              (PyDict [("title", PyStr "t")]) None None 7 12 0%Q
              (db example.limited_queued) in
  batch_jobs d' = batch_jobs (db example.limited_queued) /\
  batch_items d' !! "batch-0:0"
  = Some (BatchItem.make "batch-0:0" "batch-0" example.good_input
            (PyDict [("title", PyStr "t")]) (Some true) None None 7 12 (Some 0%Q)).
Proof.
  exact (update_unknown_batch_writes_item "no-such-batch" "batch-0:0" true
           (PyDict [("title", PyStr "t")]) None None 7 12 0%Q
           (db example.limited_queued)
           (BatchItem.make "batch-0:0" "batch-0" example.good_input PyNone
              None None None 0 0 None)
           ltac:(vm_compute; reflexivity) ltac:(vm_compute; reflexivity)).
Defined.

Lemma batch_task_queues_in_order_witness :
  let s' := (process_skill_batch example.SKILL_REGISTRY example.limited_batch
               "batch-0" "limited" [example.good_input] None
               example.limited_submitted).2 in
  batch_jobs (db example.limited_submitted) !! "batch-0" = None
  /\ broker s'
     = [fresh_message None
          (process_single_item_s "batch-0" "batch-0:0" "limited" example.good_input)].
Proof.
  intros s'.
  destruct (batch_task_queues_in_order example.SKILL_REGISTRY example.limited_batch
              "batch-0" "limited" [example.good_input] None
              example.limited_submitted s'
              (PyDict [("batch_id", PyStr "batch-0"); ("items_queued", PyInt 1)])
              ltac:(vm_compute; reflexivity))
    as (Hfresh & _ & _ & Hbroker & _).
  split; [exact Hfresh|]. rewrite Hbroker. reflexivity.
Defined.

Lemma batch_task_failure_sends_nothing_witness :
  exists exc,
    process_skill_batch example.SKILL_REGISTRY example.limited_batch
      "batch-0" "limited" [example.good_input] None example.limited_queued
    = (Raised exc, example.limited_queued).
Proof.
  apply (proj2 (batch_task_failure_sends_nothing example.SKILL_REGISTRY
                  example.limited_batch "batch-0" "limited" [example.good_input]
                  None example.limited_queued)).
  left. vm_compute. by eexists.
Defined.

Lemma status_processing_or_completed_witness :
  "completed" = value PROCESSING \/ "completed" = value COMPLETED.
Proof.
  exact (status_processing_or_completed example.SKILL_REGISTRY example.processed
           "batch-0" (BatchJob.make "batch-0" "titled" "completed" 1 1 0)
           processed_reachable processed_row).
Defined.

Lemma rows_only_grow_witness :
  exists j',
    batch_jobs (db example.processed) !! "batch-0" = Some j' /\
    BatchJob.id j' = "batch-0" /\
    BatchJob.skill_name j' = "titled" /\
    BatchJob.total_items j' = 1 /\
    0 <= BatchJob.completed_items j' /\
    0 <= BatchJob.failed_items j'.
Proof.
  exact (rows_only_grow example.SKILL_REGISTRY example.queued example.processed
           "batch-0" (BatchJob.make "batch-0" "titled" "processing" 1 0 0)
           (work_steps example.queued) ltac:(vm_compute; reflexivity)).
Defined.

Lemma retries_never_exceed_cap_witness : 0 <= 3 <= 5.
Proof.
  apply (retries_never_exceed_cap example.SKILL_REGISTRY example.thrice_limited
           {| msg_sig := example.limited_item; msg_retries := 3;
              msg_countdown := Some 90 |} thrice_limited_reachable).
  vm_compute. apply list_elem_of_here.
Defined.

Lemma messages_have_rows_witness :
  is_Some (batch_jobs (db example.thrice_limited) !! "batch-0").
Proof.
  apply (messages_have_rows example.SKILL_REGISTRY example.thrice_limited
           {| msg_sig := example.limited_item; msg_retries := 3;
              msg_countdown := Some 90 |} thrice_limited_reachable).
  vm_compute. apply list_elem_of_here.
Defined.

Lemma notifications_report_final_counts_witness :
  exists (b : string) (j : BatchJob.t),
    batch_jobs (db example.notified) !! b = Some j /\
    BatchJob.status j = value COMPLETED /\
    BatchJob.completed_items j + BatchJob.failed_items j = BatchJob.total_items j /\
    PyDict [("batch_id", PyStr "batch-0"); ("status", PyStr "completed");
            ("total", PyInt 1); ("completed", PyInt 1); ("failed", PyInt 0)]
    = PyDict [("batch_id", PyStr b);
              ("status", PyStr "completed");
              ("total", PyInt (BatchJob.total_items j));
              ("completed", PyInt (BatchJob.completed_items j));
              ("failed", PyInt (BatchJob.failed_items j))].
Proof.
  apply (notifications_report_final_counts example.SKILL_REGISTRY example.notified
           "http://hook" _ notified_reachable).
  rewrite (proj1 notified_trace). apply list_elem_of_further, list_elem_of_here.
Defined.

Lemma status_endpoint_consistent_witness :
  match main.get_batch_status "batch-0" (db example.processed) with
  | inr exc => False
  | inl response =>
      main.StatusResponse.status response = "completed" /\
      main.StatusResponse.completed response + main.StatusResponse.failed response
      = main.StatusResponse.total response
  end.
Proof.
  pose proof (status_endpoint_consistent example.SKILL_REGISTRY example.processed
                "batch-0" processed_reachable) as Hstatus.
  destruct (main.get_batch_status "batch-0" (db example.processed))
    as [response|exc] eqn:Hresponse.
  - destruct Hstatus as (_ & _ & Hiff & _).
    assert (Hdone : main.StatusResponse.status response = "completed")
      by (vm_compute in Hresponse; by injection Hresponse as <-).
    split; [exact Hdone|]. by apply Hiff.
  - vm_compute in Hresponse. discriminate Hresponse.
Defined.

Lemma fetch_failure_skips_provider_witness :
  exists message,
    url_summarizer.execute example.slow_input (0%nat, [])
    = (SkillResult.make false PyNone (Some TIMEOUT) (Some message) 0 0,
       (1%nat, [])).
Proof.
  exact (@fetch_failure_skips_provider example.runtime example.web
           example.slow_input (0%nat, []) (1%nat, [])
           url_summarizer.TimeoutException eq_refl
           ltac:(intros text; discriminate)).
Defined.

Lemma fetch_failure_recorded_at_once_witness :
  let out := process_single_item url_summarizer.SKILL_REGISTRY
               (fresh_message None
                  (process_single_item_s "batch-9" "batch-9:0" "url_summarizer"
                     example.slow_input))
               "batch-9" "batch-9:0" "url_summarizer" example.slow_input
               example.slow_queued in
  broker out.2 = broker example.slow_queued /\
  exists j',
    batch_jobs (db out.2) !! "batch-9" = Some j' /\
    BatchJob.completed_items j' = 0 /\
    BatchJob.failed_items j' = 0 + 1.
Proof.
  intros out.
  destruct (@fetch_failure_recorded_at_once example.runtime example.web
              (fresh_message None
                 (process_single_item_s "batch-9" "batch-9:0" "url_summarizer"
                    example.slow_input))
              "batch-9" "batch-9:0" example.slow_input example.slow_queued
              example.slow_input (1%nat, []) url_summarizer.TimeoutException
              (BatchJob.make "batch-9" "url_summarizer" "processing" 1 0 0)
              ltac:(vm_compute; reflexivity) ltac:(vm_compute; reflexivity)
              ltac:(intros text; discriminate)
              ltac:(vm_compute; reflexivity))
    as (_ & Hbroker & _ & _ & Hrow).
  split; [exact Hbroker|exact Hrow].
Defined.

Lemma page_text_truncated_witness :
  let content := pystr.prefix_chars url_summarizer.content_limit "<html>Example</html>" in
  (String.length content <= N.to_nat 50000)%nat
  /\ content = "<html>Example</html>".
Proof.
  intros content.
  destruct (@page_text_truncated example.runtime example.web
              example.good_input (0%nat, []) (1%nat, [])
              "<html>Example</html>" eq_refl)
    as (Hlength & _ & Hshort & _).
  split; [exact Hlength|]. apply Hshort.
  change (String.length "<html>Example</html>") with 20%nat. lia.
Defined.

Lemma summarizer_success_validated_witness :
  exists parsed validated,
    model_validate url_summarizer.UrlSummarizerOutput parsed = inl validated /\
    SkillResult.output
      (run url_summarizer.url_summarizer example.good_input example.answering).1
    = PyDict (model_dump validated).
Proof.
  exact (@summarizer_success_validated example.runtime example.web
           example.good_input example.answering eq_refl).
Defined.

End further_at_work.
